(** * CXL-DMSim: the CXL memory expander device (src/dev/storage/cxl_memory.cc)

    A shallow embedding of [CXLMemory], its two protocol ports
    ([CXLResponsePort], facing the host, and [CXLRequestPort], facing the
    backend memory) and its near-memory-processing (NMP) bypass, followed by
    the properties of the admission, queueing and retry logic.

    The device is single threaded; every member function runs to completion
    at one simulated instant.  A member function that mutates the device is
    a function from the device state to the new device state; one that can
    hit [panic] or a failed [assert] returns an [Outcome]. *)

From Stdlib Require Import ZArith List Bool String Lia.
Import ListNotations.
Open Scope Z_scope.

(** ** Machine integers

    [Tick] and [Cycles] are the simulator's 64-bit unsigned counters, the
    packet delays and the response-slot counter are 32-bit unsigned.  They
    are carried as [Z] and every arithmetic operation of the source is
    followed by the reduction its C++ type performs. *)

Definition Tick := Z.
Definition Cycles := Z.
Definition Addr := Z.

Definition wrap32 (z : Z) : Z := z mod 2 ^ 32.
Definition wrap64 (z : Z) : Z := z mod 2 ^ 64.

(** [Tick + Tick] and [Tick - Tick]. *)
Definition tick_add (a b : Tick) : Tick := wrap64 (a + b).
Definition tick_sub (a b : Tick) : Tick := wrap64 (a - b).

(** The literal [-1] compared against a [Tick]. *)
Definition tick_minus_one : Tick := wrap64 (-1).

(** ** Failures *)

Inductive Failure : Type :=
| PanicCacheResponding      (* panic_if(pkt->cacheResponding(), ...) *)
| PanicNMPPortDisabled      (* getPort: NMP memory port requested but NMP is disabled *)
| AssertListNotEmpty        (* assert(!transmitList.empty()) *)
| AssertTickDue             (* assert(req.tick <= curTick()) *)
| AssertReqQueueNotAtLimit  (* assert(transmitList.size() != reqQueueLimit) *)
| AssertRespSlotFree        (* assert(outstandingResponses != respQueueLimit) *)
| AssertOutstandingNonZero. (* assert(outstandingResponses != 0) *)

Inductive Outcome (A : Type) : Type :=
| Ok (a : A)
| Abort (f : Failure).
Arguments Ok {A} a.
Arguments Abort {A} f.

Definition bind {A B : Type} (m : Outcome A) (k : A -> Outcome B) : Outcome B :=
  match m with
  | Ok a => k a
  | Abort f => Abort f
  end.

Notation "x <- m ;; k" := (bind m (fun x => k))
  (at level 61, m at next level, right associativity).
Notation "m ;;; k" := (bind m (fun _ => k))
  (at level 61, right associativity).

(** [assert(c)] and [panic_if(c, ...)]. *)
Definition assert (c : bool) (f : Failure) : Outcome unit :=
  if c then Ok tt else Abort f.
Definition panic_if (c : bool) (f : Failure) : Outcome unit :=
  if c then Abort f else Ok tt.

(** ** The clock of the hosting simulator

    [curTick()], [clockEdge(Cycles)] and [ticksToCycles(Tick)] belong to the
    simulation framework; [nmpCPU->curCycle()] is the clock of the attached
    processing unit.  Their values at the instant of a call are an input of
    that call. *)

Record Env : Type := {
  curTick : Tick;
  clockEdge : Cycles -> Tick;
  ticksToCycles : Tick -> Cycles;
  cpuCurCycle : Cycles
}.

(** ** Packets

    The packet class is the framework's.  The record has one field for each
    accessor the device calls and each member it reads or writes. *)

Record Packet : Type := {
  pktAddr : Addr;
  pktSize : Z;
  isRead : bool;
  isWrite : bool;
  needsResponse : bool;
  cacheResponding : bool;
  headerDelay : Z;
  payloadDelay : Z;
  reqTime : Tick            (* pkt->req->time() *)
}.

(** [Tick receive_delay = pkt->headerDelay + pkt->payloadDelay;] *)
Definition receive_delay (pkt : Packet) : Tick :=
  wrap32 (headerDelay pkt + payloadDelay pkt).

(** [pkt->headerDelay = pkt->payloadDelay = 0;] *)
Definition clearDelays (pkt : Packet) : Packet :=
  {| pktAddr := pktAddr pkt; pktSize := pktSize pkt;
     isRead := isRead pkt; isWrite := isWrite pkt;
     needsResponse := needsResponse pkt;
     cacheResponding := cacheResponding pkt;
     headerDelay := 0; payloadDelay := 0;
     reqTime := reqTime pkt |}.

(** Modelled from the spec: the queue entry type [DeferredPacket] is declared
    in the device's header; an entry wraps an item with its scheduled time
    and its enqueue time, the latter taken when the entry is built. *)
Record DeferredPacket : Type := {
  tick : Tick;
  pkt : Packet;
  entryTime : Tick
}.

Definition mkDeferredPacket (env : Env) (p : Packet) (when : Tick) : DeferredPacket :=
  {| tick := when; pkt := p; entryTime := curTick env |}.

(** ** The processing unit seen by the bypass

    The unit and its thread contexts are objects of the framework that the
    device reaches through the pointers [nmpCPU] and [nmpTC].  The device
    state holds, for each pointer, the state of the object it designates:
    [nmpTC] is the context as the device last left it, and the list of
    contexts under [nmpCPU] is the unit as it was attached. *)

Inductive Status : Type := Active | Suspended | Halting | Halted.

Definition Status_eqb (a b : Status) : bool :=
  match a, b with
  | Active, Active | Suspended, Suspended
  | Halting, Halting | Halted, Halted => true
  | _, _ => false
  end.

Record ThreadContext : Type := {
  pcState : Addr;
  status : Status
}.

Record BaseCPU : Type := {
  numThreads : Z;
  threadContexts : list ThreadContext
}.

(** ** Calls made on the simulation framework and on the peers *)

Inductive SendEvent : Type := ReqSendEvent | RspSendEvent.

Inductive PortRef : Type :=
| CxlRspPortRef
| MemReqPortRef
| NmpMemPortRef
| DmaPortRef
| PioDevicePortRef (if_name : string) (idx : Z).

Inductive Call : Type :=
| Schedule (ev : SendEvent) (when : Tick)
| SendRetryReq
| SendTimingReq (port : PortRef) (p : Packet) (accepted : bool)
| SendTimingResp (p : Packet) (accepted : bool)
| DeletePacket (p : Packet)
| ActivateContext
| Warn (msg : string)
| Inform (msg : string).

(** ** Statistics *)

Record CXLCtrlStats : Type := {
  reqQueFullEvents : Z;
  reqRetryCounts : Z;
  rspQueFullEvents : Z;
  reqSendFaild : Z;
  rspSendFaild : Z;
  reqSendSucceed : Z;
  rspSendSucceed : Z;
  reqQueueLenDist : list Z;
  rspQueueLenDist : list Z;
  rspOutStandDist : list Z;
  reqQueueLatDist : list Z;
  rspQueueLatDist : list Z;
  memToCXLCtrlRsp : list Z
}.

Record NMPStats : Type := {
  nmpMemReads : Z;
  nmpMemWrites : Z;
  nmpAccessLatency : list Z;
  nmpActiveCycles : Z;
  nmpExecutions : Z
}.

Definition CXLCtrlStats_init : CXLCtrlStats :=
  {| reqQueFullEvents := 0; reqRetryCounts := 0; rspQueFullEvents := 0;
     reqSendFaild := 0; rspSendFaild := 0; reqSendSucceed := 0;
     rspSendSucceed := 0; reqQueueLenDist := []; rspQueueLenDist := [];
     rspOutStandDist := []; reqQueueLatDist := []; rspQueueLatDist := [];
     memToCXLCtrlRsp := [] |}.

Definition NMPStats_init : NMPStats :=
  {| nmpMemReads := 0; nmpMemWrites := 0; nmpAccessLatency := [];
     nmpActiveCycles := 0; nmpExecutions := 0 |}.

(** ** The device *)

Record CXLResponsePort : Type := {
  rsp_protoProcLat : Cycles;
  outstandingResponses : Z;
  retryReq : bool;
  respQueueLimit : Z;
  rsp_transmitList : list DeferredPacket
}.

Record CXLRequestPort : Type := {
  req_protoProcLat : Cycles;
  reqQueueLimit : Z;
  req_transmitList : list DeferredPacket
}.

Record CXLMemory : Type := {
  cxlRspPort : CXLResponsePort;
  memReqPort : CXLRequestPort;
  preRspTick : Tick;
  enableNMP : bool;
  nmpCPU : option BaseCPU;
  nmpTC : option ThreadContext;
  nmpStartAddr : Addr;
  nmpBinaryPath : string;
  stats : CXLCtrlStats;
  nmpStats : NMPStats;
  calls : list Call          (* oldest first *)
}.

Record Params : Type := {
  proto_proc_lat : Tick;
  rsp_size : Z;
  req_size : Z;
  enable_nmp : bool;
  nmp_start_addr : Addr;
  nmp_binary : string
}.

(** The constructors of the two ports and of the device. *)
Definition mkCXLMemory (env : Env) (p : Params) : CXLMemory :=
  {| cxlRspPort :=
       {| rsp_protoProcLat := ticksToCycles env (proto_proc_lat p);
          outstandingResponses := 0;
          retryReq := false;
          respQueueLimit := rsp_size p;
          rsp_transmitList := [] |};
     memReqPort :=
       {| req_protoProcLat := ticksToCycles env (proto_proc_lat p);
          reqQueueLimit := req_size p;
          req_transmitList := [] |};
     preRspTick := 0;
     enableNMP := enable_nmp p;
     nmpCPU := None;
     nmpTC := None;
     nmpStartAddr := nmp_start_addr p;
     nmpBinaryPath := nmp_binary p;
     stats := CXLCtrlStats_init;
     nmpStats := NMPStats_init;
     calls := [] |}.

(** ** Field updates *)

Definition with_cxlRspPort (f : CXLResponsePort -> CXLResponsePort) (s : CXLMemory) : CXLMemory :=
  {| cxlRspPort := f (cxlRspPort s); memReqPort := memReqPort s;
     preRspTick := preRspTick s; enableNMP := enableNMP s; nmpCPU := nmpCPU s;
     nmpTC := nmpTC s; nmpStartAddr := nmpStartAddr s;
     nmpBinaryPath := nmpBinaryPath s; stats := stats s;
     nmpStats := nmpStats s; calls := calls s |}.

Definition with_memReqPort (f : CXLRequestPort -> CXLRequestPort) (s : CXLMemory) : CXLMemory :=
  {| cxlRspPort := cxlRspPort s; memReqPort := f (memReqPort s);
     preRspTick := preRspTick s; enableNMP := enableNMP s; nmpCPU := nmpCPU s;
     nmpTC := nmpTC s; nmpStartAddr := nmpStartAddr s;
     nmpBinaryPath := nmpBinaryPath s; stats := stats s;
     nmpStats := nmpStats s; calls := calls s |}.

Definition with_preRspTick (t : Tick) (s : CXLMemory) : CXLMemory :=
  {| cxlRspPort := cxlRspPort s; memReqPort := memReqPort s;
     preRspTick := t; enableNMP := enableNMP s; nmpCPU := nmpCPU s;
     nmpTC := nmpTC s; nmpStartAddr := nmpStartAddr s;
     nmpBinaryPath := nmpBinaryPath s; stats := stats s;
     nmpStats := nmpStats s; calls := calls s |}.

Definition with_nmpCPU (c : option BaseCPU) (s : CXLMemory) : CXLMemory :=
  {| cxlRspPort := cxlRspPort s; memReqPort := memReqPort s;
     preRspTick := preRspTick s; enableNMP := enableNMP s; nmpCPU := c;
     nmpTC := nmpTC s; nmpStartAddr := nmpStartAddr s;
     nmpBinaryPath := nmpBinaryPath s; stats := stats s;
     nmpStats := nmpStats s; calls := calls s |}.

Definition with_nmpTC (tc : option ThreadContext) (s : CXLMemory) : CXLMemory :=
  {| cxlRspPort := cxlRspPort s; memReqPort := memReqPort s;
     preRspTick := preRspTick s; enableNMP := enableNMP s; nmpCPU := nmpCPU s;
     nmpTC := tc; nmpStartAddr := nmpStartAddr s;
     nmpBinaryPath := nmpBinaryPath s; stats := stats s;
     nmpStats := nmpStats s; calls := calls s |}.

Definition with_stats (f : CXLCtrlStats -> CXLCtrlStats) (s : CXLMemory) : CXLMemory :=
  {| cxlRspPort := cxlRspPort s; memReqPort := memReqPort s;
     preRspTick := preRspTick s; enableNMP := enableNMP s; nmpCPU := nmpCPU s;
     nmpTC := nmpTC s; nmpStartAddr := nmpStartAddr s;
     nmpBinaryPath := nmpBinaryPath s; stats := f (stats s);
     nmpStats := nmpStats s; calls := calls s |}.

Definition with_nmpStats (f : NMPStats -> NMPStats) (s : CXLMemory) : CXLMemory :=
  {| cxlRspPort := cxlRspPort s; memReqPort := memReqPort s;
     preRspTick := preRspTick s; enableNMP := enableNMP s; nmpCPU := nmpCPU s;
     nmpTC := nmpTC s; nmpStartAddr := nmpStartAddr s;
     nmpBinaryPath := nmpBinaryPath s; stats := stats s;
     nmpStats := f (nmpStats s); calls := calls s |}.

(** A call on the framework or on a peer is appended to the log. *)
Definition call (c : Call) (s : CXLMemory) : CXLMemory :=
  {| cxlRspPort := cxlRspPort s; memReqPort := memReqPort s;
     preRspTick := preRspTick s; enableNMP := enableNMP s; nmpCPU := nmpCPU s;
     nmpTC := nmpTC s; nmpStartAddr := nmpStartAddr s;
     nmpBinaryPath := nmpBinaryPath s; stats := stats s;
     nmpStats := nmpStats s; calls := calls s ++ [c] |}.

Definition rsp_with_outstandingResponses (n : Z) (p : CXLResponsePort) : CXLResponsePort :=
  {| rsp_protoProcLat := rsp_protoProcLat p; outstandingResponses := n;
     retryReq := retryReq p; respQueueLimit := respQueueLimit p;
     rsp_transmitList := rsp_transmitList p |}.

Definition rsp_with_retryReq (b : bool) (p : CXLResponsePort) : CXLResponsePort :=
  {| rsp_protoProcLat := rsp_protoProcLat p;
     outstandingResponses := outstandingResponses p;
     retryReq := b; respQueueLimit := respQueueLimit p;
     rsp_transmitList := rsp_transmitList p |}.

Definition rsp_with_transmitList (l : list DeferredPacket) (p : CXLResponsePort) : CXLResponsePort :=
  {| rsp_protoProcLat := rsp_protoProcLat p;
     outstandingResponses := outstandingResponses p;
     retryReq := retryReq p; respQueueLimit := respQueueLimit p;
     rsp_transmitList := l |}.

Definition req_with_transmitList (l : list DeferredPacket) (p : CXLRequestPort) : CXLRequestPort :=
  {| req_protoProcLat := req_protoProcLat p; reqQueueLimit := reqQueueLimit p;
     req_transmitList := l |}.

(** [stat++] on a scalar, [dist.sample(v)] on a distribution. *)
Definition inc_reqQueFullEvents (t : CXLCtrlStats) : CXLCtrlStats :=
  {| reqQueFullEvents := reqQueFullEvents t + 1; reqRetryCounts := reqRetryCounts t;
     rspQueFullEvents := rspQueFullEvents t; reqSendFaild := reqSendFaild t;
     rspSendFaild := rspSendFaild t; reqSendSucceed := reqSendSucceed t;
     rspSendSucceed := rspSendSucceed t; reqQueueLenDist := reqQueueLenDist t;
     rspQueueLenDist := rspQueueLenDist t; rspOutStandDist := rspOutStandDist t;
     reqQueueLatDist := reqQueueLatDist t; rspQueueLatDist := rspQueueLatDist t;
     memToCXLCtrlRsp := memToCXLCtrlRsp t |}.

Definition inc_reqRetryCounts (t : CXLCtrlStats) : CXLCtrlStats :=
  {| reqQueFullEvents := reqQueFullEvents t; reqRetryCounts := reqRetryCounts t + 1;
     rspQueFullEvents := rspQueFullEvents t; reqSendFaild := reqSendFaild t;
     rspSendFaild := rspSendFaild t; reqSendSucceed := reqSendSucceed t;
     rspSendSucceed := rspSendSucceed t; reqQueueLenDist := reqQueueLenDist t;
     rspQueueLenDist := rspQueueLenDist t; rspOutStandDist := rspOutStandDist t;
     reqQueueLatDist := reqQueueLatDist t; rspQueueLatDist := rspQueueLatDist t;
     memToCXLCtrlRsp := memToCXLCtrlRsp t |}.

Definition inc_rspQueFullEvents (t : CXLCtrlStats) : CXLCtrlStats :=
  {| reqQueFullEvents := reqQueFullEvents t; reqRetryCounts := reqRetryCounts t;
     rspQueFullEvents := rspQueFullEvents t + 1; reqSendFaild := reqSendFaild t;
     rspSendFaild := rspSendFaild t; reqSendSucceed := reqSendSucceed t;
     rspSendSucceed := rspSendSucceed t; reqQueueLenDist := reqQueueLenDist t;
     rspQueueLenDist := rspQueueLenDist t; rspOutStandDist := rspOutStandDist t;
     reqQueueLatDist := reqQueueLatDist t; rspQueueLatDist := rspQueueLatDist t;
     memToCXLCtrlRsp := memToCXLCtrlRsp t |}.

Definition inc_reqSendFaild (t : CXLCtrlStats) : CXLCtrlStats :=
  {| reqQueFullEvents := reqQueFullEvents t; reqRetryCounts := reqRetryCounts t;
     rspQueFullEvents := rspQueFullEvents t; reqSendFaild := reqSendFaild t + 1;
     rspSendFaild := rspSendFaild t; reqSendSucceed := reqSendSucceed t;
     rspSendSucceed := rspSendSucceed t; reqQueueLenDist := reqQueueLenDist t;
     rspQueueLenDist := rspQueueLenDist t; rspOutStandDist := rspOutStandDist t;
     reqQueueLatDist := reqQueueLatDist t; rspQueueLatDist := rspQueueLatDist t;
     memToCXLCtrlRsp := memToCXLCtrlRsp t |}.

Definition inc_rspSendFaild (t : CXLCtrlStats) : CXLCtrlStats :=
  {| reqQueFullEvents := reqQueFullEvents t; reqRetryCounts := reqRetryCounts t;
     rspQueFullEvents := rspQueFullEvents t; reqSendFaild := reqSendFaild t;
     rspSendFaild := rspSendFaild t + 1; reqSendSucceed := reqSendSucceed t;
     rspSendSucceed := rspSendSucceed t; reqQueueLenDist := reqQueueLenDist t;
     rspQueueLenDist := rspQueueLenDist t; rspOutStandDist := rspOutStandDist t;
     reqQueueLatDist := reqQueueLatDist t; rspQueueLatDist := rspQueueLatDist t;
     memToCXLCtrlRsp := memToCXLCtrlRsp t |}.

Definition inc_reqSendSucceed (t : CXLCtrlStats) : CXLCtrlStats :=
  {| reqQueFullEvents := reqQueFullEvents t; reqRetryCounts := reqRetryCounts t;
     rspQueFullEvents := rspQueFullEvents t; reqSendFaild := reqSendFaild t;
     rspSendFaild := rspSendFaild t; reqSendSucceed := reqSendSucceed t + 1;
     rspSendSucceed := rspSendSucceed t; reqQueueLenDist := reqQueueLenDist t;
     rspQueueLenDist := rspQueueLenDist t; rspOutStandDist := rspOutStandDist t;
     reqQueueLatDist := reqQueueLatDist t; rspQueueLatDist := rspQueueLatDist t;
     memToCXLCtrlRsp := memToCXLCtrlRsp t |}.

Definition inc_rspSendSucceed (t : CXLCtrlStats) : CXLCtrlStats :=
  {| reqQueFullEvents := reqQueFullEvents t; reqRetryCounts := reqRetryCounts t;
     rspQueFullEvents := rspQueFullEvents t; reqSendFaild := reqSendFaild t;
     rspSendFaild := rspSendFaild t; reqSendSucceed := reqSendSucceed t;
     rspSendSucceed := rspSendSucceed t + 1; reqQueueLenDist := reqQueueLenDist t;
     rspQueueLenDist := rspQueueLenDist t; rspOutStandDist := rspOutStandDist t;
     reqQueueLatDist := reqQueueLatDist t; rspQueueLatDist := rspQueueLatDist t;
     memToCXLCtrlRsp := memToCXLCtrlRsp t |}.

Definition sample_reqQueueLenDist (v : Z) (t : CXLCtrlStats) : CXLCtrlStats :=
  {| reqQueFullEvents := reqQueFullEvents t; reqRetryCounts := reqRetryCounts t;
     rspQueFullEvents := rspQueFullEvents t; reqSendFaild := reqSendFaild t;
     rspSendFaild := rspSendFaild t; reqSendSucceed := reqSendSucceed t;
     rspSendSucceed := rspSendSucceed t; reqQueueLenDist := reqQueueLenDist t ++ [v];
     rspQueueLenDist := rspQueueLenDist t; rspOutStandDist := rspOutStandDist t;
     reqQueueLatDist := reqQueueLatDist t; rspQueueLatDist := rspQueueLatDist t;
     memToCXLCtrlRsp := memToCXLCtrlRsp t |}.

Definition sample_rspQueueLenDist (v : Z) (t : CXLCtrlStats) : CXLCtrlStats :=
  {| reqQueFullEvents := reqQueFullEvents t; reqRetryCounts := reqRetryCounts t;
     rspQueFullEvents := rspQueFullEvents t; reqSendFaild := reqSendFaild t;
     rspSendFaild := rspSendFaild t; reqSendSucceed := reqSendSucceed t;
     rspSendSucceed := rspSendSucceed t; reqQueueLenDist := reqQueueLenDist t;
     rspQueueLenDist := rspQueueLenDist t ++ [v]; rspOutStandDist := rspOutStandDist t;
     reqQueueLatDist := reqQueueLatDist t; rspQueueLatDist := rspQueueLatDist t;
     memToCXLCtrlRsp := memToCXLCtrlRsp t |}.

Definition sample_rspOutStandDist (v : Z) (t : CXLCtrlStats) : CXLCtrlStats :=
  {| reqQueFullEvents := reqQueFullEvents t; reqRetryCounts := reqRetryCounts t;
     rspQueFullEvents := rspQueFullEvents t; reqSendFaild := reqSendFaild t;
     rspSendFaild := rspSendFaild t; reqSendSucceed := reqSendSucceed t;
     rspSendSucceed := rspSendSucceed t; reqQueueLenDist := reqQueueLenDist t;
     rspQueueLenDist := rspQueueLenDist t; rspOutStandDist := rspOutStandDist t ++ [v];
     reqQueueLatDist := reqQueueLatDist t; rspQueueLatDist := rspQueueLatDist t;
     memToCXLCtrlRsp := memToCXLCtrlRsp t |}.

Definition sample_reqQueueLatDist (v : Z) (t : CXLCtrlStats) : CXLCtrlStats :=
  {| reqQueFullEvents := reqQueFullEvents t; reqRetryCounts := reqRetryCounts t;
     rspQueFullEvents := rspQueFullEvents t; reqSendFaild := reqSendFaild t;
     rspSendFaild := rspSendFaild t; reqSendSucceed := reqSendSucceed t;
     rspSendSucceed := rspSendSucceed t; reqQueueLenDist := reqQueueLenDist t;
     rspQueueLenDist := rspQueueLenDist t; rspOutStandDist := rspOutStandDist t;
     reqQueueLatDist := reqQueueLatDist t ++ [v]; rspQueueLatDist := rspQueueLatDist t;
     memToCXLCtrlRsp := memToCXLCtrlRsp t |}.

Definition sample_rspQueueLatDist (v : Z) (t : CXLCtrlStats) : CXLCtrlStats :=
  {| reqQueFullEvents := reqQueFullEvents t; reqRetryCounts := reqRetryCounts t;
     rspQueFullEvents := rspQueFullEvents t; reqSendFaild := reqSendFaild t;
     rspSendFaild := rspSendFaild t; reqSendSucceed := reqSendSucceed t;
     rspSendSucceed := rspSendSucceed t; reqQueueLenDist := reqQueueLenDist t;
     rspQueueLenDist := rspQueueLenDist t; rspOutStandDist := rspOutStandDist t;
     reqQueueLatDist := reqQueueLatDist t; rspQueueLatDist := rspQueueLatDist t ++ [v];
     memToCXLCtrlRsp := memToCXLCtrlRsp t |}.

Definition sample_memToCXLCtrlRsp (v : Z) (t : CXLCtrlStats) : CXLCtrlStats :=
  {| reqQueFullEvents := reqQueFullEvents t; reqRetryCounts := reqRetryCounts t;
     rspQueFullEvents := rspQueFullEvents t; reqSendFaild := reqSendFaild t;
     rspSendFaild := rspSendFaild t; reqSendSucceed := reqSendSucceed t;
     rspSendSucceed := rspSendSucceed t; reqQueueLenDist := reqQueueLenDist t;
     rspQueueLenDist := rspQueueLenDist t; rspOutStandDist := rspOutStandDist t;
     reqQueueLatDist := reqQueueLatDist t; rspQueueLatDist := rspQueueLatDist t;
     memToCXLCtrlRsp := memToCXLCtrlRsp t ++ [v] |}.

Definition inc_nmpMemReads (t : NMPStats) : NMPStats :=
  {| nmpMemReads := nmpMemReads t + 1; nmpMemWrites := nmpMemWrites t;
     nmpAccessLatency := nmpAccessLatency t;
     nmpActiveCycles := nmpActiveCycles t; nmpExecutions := nmpExecutions t |}.

Definition inc_nmpMemWrites (t : NMPStats) : NMPStats :=
  {| nmpMemReads := nmpMemReads t; nmpMemWrites := nmpMemWrites t + 1;
     nmpAccessLatency := nmpAccessLatency t;
     nmpActiveCycles := nmpActiveCycles t; nmpExecutions := nmpExecutions t |}.

Definition sample_nmpAccessLatency (v : Z) (t : NMPStats) : NMPStats :=
  {| nmpMemReads := nmpMemReads t; nmpMemWrites := nmpMemWrites t;
     nmpAccessLatency := nmpAccessLatency t ++ [v];
     nmpActiveCycles := nmpActiveCycles t; nmpExecutions := nmpExecutions t |}.

Definition assign_nmpActiveCycles (v : Z) (t : NMPStats) : NMPStats :=
  {| nmpMemReads := nmpMemReads t; nmpMemWrites := nmpMemWrites t;
     nmpAccessLatency := nmpAccessLatency t;
     nmpActiveCycles := v; nmpExecutions := nmpExecutions t |}.

Definition inc_nmpExecutions (t : NMPStats) : NMPStats :=
  {| nmpMemReads := nmpMemReads t; nmpMemWrites := nmpMemWrites t;
     nmpAccessLatency := nmpAccessLatency t;
     nmpActiveCycles := nmpActiveCycles t; nmpExecutions := nmpExecutions t + 1 |}.

(** [transmitList.size()] *)
Definition size (l : list DeferredPacket) : Z := Z.of_nat (List.length l).
Arguments size : simpl never.

(** ** Capacity checks

    Both checks are [const] member functions that nevertheless bump a
    statistic when they answer [true]. *)

Definition respQueueFull (s : CXLMemory) : bool * CXLMemory :=
  if outstandingResponses (cxlRspPort s) =? respQueueLimit (cxlRspPort s)
  then (true, with_stats inc_rspQueFullEvents s)
  else (false, s).

Definition reqQueueFull (s : CXLMemory) : bool * CXLMemory :=
  if size (req_transmitList (memReqPort s)) =? reqQueueLimit (memReqPort s)
  then (true, with_stats inc_reqQueFullEvents s)
  else (false, s).

(** ** Deferred-send queues *)

Definition schedTimingReq (env : Env) (p : Packet) (when : Tick)
    (s : CXLMemory) : Outcome CXLMemory :=
  let s := if size (req_transmitList (memReqPort s)) =? 0
           then call (Schedule ReqSendEvent when) s else s in
  assert (negb (size (req_transmitList (memReqPort s)) =? reqQueueLimit (memReqPort s)))
         AssertReqQueueNotAtLimit ;;;
  let s := with_memReqPort
             (fun q => req_with_transmitList
                         (req_transmitList q ++ [mkDeferredPacket env p when]) q) s in
  Ok (with_stats (sample_reqQueueLenDist (size (req_transmitList (memReqPort s)))) s).

Definition schedTimingResp (env : Env) (p : Packet) (when : Tick)
    (s : CXLMemory) : CXLMemory :=
  let s := if size (rsp_transmitList (cxlRspPort s)) =? 0
           then call (Schedule RspSendEvent when) s else s in
  let s := with_cxlRspPort
             (fun q => rsp_with_transmitList
                         (rsp_transmitList q ++ [mkDeferredPacket env p when]) q) s in
  with_stats (sample_rspQueueLenDist (size (rsp_transmitList (cxlRspPort s)))) s.

(** ** Backend completions: [CXLRequestPort::recvTimingResp] *)

Definition CXLRequestPort_recvTimingResp (env : Env) (p : Packet)
    (s : CXLMemory) : bool * CXLMemory :=
  let s :=
    if preRspTick s =? tick_minus_one
    then with_preRspTick (clockEdge env 0) s
    else
      let s := with_stats
                 (sample_memToCXLCtrlRsp
                    (ticksToCycles env (tick_sub (clockEdge env 0) (preRspTick s)))) s in
      with_preRspTick (clockEdge env 0) s in
  let delay := receive_delay p in
  let p := clearDelays p in
  let s := schedTimingResp env p
             (tick_add (clockEdge env (req_protoProcLat (memReqPort s))) delay) s in
  (true, s).

(** ** Host requests: [CXLResponsePort::recvTimingReq] *)

Definition recvTimingReq (env : Env) (p : Packet)
    (s : CXLMemory) : Outcome (bool * CXLMemory) :=
  panic_if (cacheResponding p) PanicCacheResponding ;;;
  if retryReq (cxlRspPort s) then Ok (false, s)
  else
    let '(full, s) := reqQueueFull s in
    s <- (if full
          then Ok (with_cxlRspPort (rsp_with_retryReq true) s)
          else
            let expects_response := needsResponse p in
            s <- (if expects_response
                  then
                    let '(rfull, s) := respQueueFull s in
                    if rfull
                    then Ok (with_cxlRspPort (rsp_with_retryReq true) s)
                    else
                      assert (negb (outstandingResponses (cxlRspPort s)
                                    =? respQueueLimit (cxlRspPort s)))
                             AssertRespSlotFree ;;;
                      let s := with_cxlRspPort
                                 (fun q => rsp_with_outstandingResponses
                                             (wrap32 (outstandingResponses q + 1)) q) s in
                      Ok (with_stats
                            (sample_rspOutStandDist
                               (outstandingResponses (cxlRspPort s))) s)
                  else Ok s) ;;
            if negb (retryReq (cxlRspPort s))
            then
              let delay := receive_delay p in
              let p := clearDelays p in
              schedTimingReq env p
                (tick_add (clockEdge env (rsp_protoProcLat (cxlRspPort s))) delay) s
            else Ok s) ;;
    Ok (negb (retryReq (cxlRspPort s)), s).

Definition retryStalledReq (s : CXLMemory) : CXLMemory :=
  if retryReq (cxlRspPort s)
  then
    let s := with_cxlRspPort (rsp_with_retryReq false) s in
    let s := call SendRetryReq s in
    with_stats inc_reqRetryCounts s
  else s.

(** ** Sending: the two [trySendTiming]

    [accepted] is the answer of the peer to [sendTimingReq] (backend) or
    [sendTimingResp] (host). *)

Definition CXLRequestPort_trySendTiming (env : Env) (accepted : bool)
    (s : CXLMemory) : Outcome CXLMemory :=
  match req_transmitList (memReqPort s) with
  | [] => Abort AssertListNotEmpty
  | req :: rest =>
      assert (tick req <=? curTick env) AssertTickDue ;;;
      let s := call (SendTimingReq MemReqPortRef (pkt req) accepted) s in
      if accepted
      then
        let s := with_stats inc_reqSendSucceed s in
        let s := with_stats
                   (sample_reqQueueLatDist (tick_sub (curTick env) (entryTime req))) s in
        let s := with_memReqPort (req_with_transmitList rest) s in
        let s := with_stats
                   (sample_reqQueueLenDist (size (req_transmitList (memReqPort s)))) s in
        let s := match req_transmitList (memReqPort s) with
                 | [] => s
                 | next_req :: _ =>
                     call (Schedule ReqSendEvent
                             (Z.max (tick next_req) (clockEdge env 0))) s
                 end in
        Ok (retryStalledReq s)
      else Ok (with_stats inc_reqSendFaild s)
  end.

Definition CXLResponsePort_trySendTiming (env : Env) (accepted : bool)
    (s : CXLMemory) : Outcome CXLMemory :=
  match rsp_transmitList (cxlRspPort s) with
  | [] => Abort AssertListNotEmpty
  | resp :: rest =>
      assert (tick resp <=? curTick env) AssertTickDue ;;;
      let s := call (SendTimingResp (pkt resp) accepted) s in
      if accepted
      then
        let s := with_stats inc_rspSendSucceed s in
        let s := with_stats
                   (sample_rspQueueLatDist (tick_sub (curTick env) (entryTime resp))) s in
        let s := with_cxlRspPort (rsp_with_transmitList rest) s in
        let s := with_stats
                   (sample_rspQueueLenDist (size (rsp_transmitList (cxlRspPort s)))) s in
        assert (negb (outstandingResponses (cxlRspPort s) =? 0))
               AssertOutstandingNonZero ;;;
        let s := with_cxlRspPort
                   (fun q => rsp_with_outstandingResponses
                               (wrap32 (outstandingResponses q - 1)) q) s in
        let s := with_stats
                   (sample_rspOutStandDist (outstandingResponses (cxlRspPort s))) s in
        let s := match rsp_transmitList (cxlRspPort s) with
                 | [] => s
                 | next_resp :: _ =>
                     call (Schedule RspSendEvent
                             (Z.max (tick next_resp) (clockEdge env 0))) s
                 end in
        let '(full, s) := reqQueueFull s in
        if negb full && retryReq (cxlRspPort s)
        then
          let s := with_cxlRspPort (rsp_with_retryReq false) s in
          let s := call SendRetryReq s in
          Ok (with_stats inc_reqRetryCounts s)
        else Ok s
      else Ok (with_stats inc_rspSendFaild s)
  end.

Definition recvReqRetry := CXLRequestPort_trySendTiming.
Definition recvRespRetry := CXLResponsePort_trySendTiming.

(** ** The bypass memory port: [NMPMemPort] *)

Definition NMPMemPort_recvTimingResp (env : Env) (p : Packet)
    (s : CXLMemory) : bool * CXLMemory :=
  let latency := tick_sub (curTick env) (reqTime p) in
  let s := with_nmpStats (sample_nmpAccessLatency latency) s in
  let s := if isRead p then with_nmpStats inc_nmpMemReads s
           else if isWrite p then with_nmpStats inc_nmpMemWrites s
           else s in
  match nmpCPU s with
  | Some _ => (true, call (DeletePacket p) s)
  | None => (true, call (DeletePacket p) s)
  end.

Definition NMPMemPort_recvReqRetry (s : CXLMemory) : CXLMemory := s.

(** ** [CXLMemory::getPort]

    The last branch returns what [PioDevice::getPort] returns.  That function
    is the framework's; its outcome for a name and an index, a port or a
    failure of its own, is an input of the call. *)

Definition getPort (PioDevice_getPort : string -> Z -> Outcome PortRef)
    (s : CXLMemory) (if_name : string) (idx : Z) : Outcome PortRef :=
  if String.eqb if_name "cxl_rsp_port" then Ok CxlRspPortRef
  else if String.eqb if_name "mem_req_port" then Ok MemReqPortRef
  else if String.eqb if_name "nmp_mem_port" then
    if enableNMP s then Ok NmpMemPortRef
    else Abort PanicNMPPortDisabled
  else if String.eqb if_name "dma" then Ok DmaPortRef
  else PioDevice_getPort if_name idx.

(** ** The bypass coordinator *)

(** Modelled from the spec: [setNMPCPU] is defined in the device's header;
    the external configuration layer attaches the processing-unit handle
    with it. *)
Definition setNMPCPU (cpu : BaseCPU) (s : CXLMemory) : CXLMemory :=
  with_nmpCPU (Some cpu) s.

(** [connected] is the answer of [nmpMemPort.isConnected()]. *)
Definition initNMPCPU (connected : bool) (s : CXLMemory) : CXLMemory :=
  if negb (enableNMP s) then s
  else
    let s := call (Inform "Initializing NMP CPU at CXL memory device") s in
    if negb connected
    then
      let s := call (Warn "NMP memory port not connected to backend memory!") s in
      call (Warn "Please connect nmpMemPort to backend memory in configuration.") s
    else
      match nmpCPU s with
      | None =>
          let s := call (Inform "NMP CPU not yet created. It should be instantiated in Python config.") s in
          call (Inform "The CPU will be connected when created via setNMPCPU() method.") s
      | Some cpu =>
          if 0 <? numThreads cpu
          then
            let s := with_nmpTC (nth_error (threadContexts cpu) 0) s in
            call (Inform "NMP CPU thread context acquired") s
          else
            let s := call (Warn "NMP CPU has no thread contexts!") s in
            with_nmpCPU None s
      end.

(** [tc->pcState(startPC)] and [tc->activate()]. *)
Definition set_pcState (a : Addr) (tc : ThreadContext) : ThreadContext :=
  {| pcState := a; status := status tc |}.
Definition activate (tc : ThreadContext) : ThreadContext :=
  {| pcState := pcState tc; status := Active |}.

Definition startNMPExecution (env : Env) (startPC stackPtr : Addr)
    (s : CXLMemory) : CXLMemory :=
  if negb (enableNMP s)
  then call (Warn "Attempt to start NMP execution but NMP is disabled") s
  else
    match nmpCPU s with
    | None => call (Warn "NMP CPU not initialized, cannot start execution") s
    | Some cpu =>
        match nmpTC s with
        | None => call (Warn "NMP thread context not available") s
        | Some tc =>
            let s := call (Inform "Starting NMP CPU execution") s in
            let s := with_nmpStats inc_nmpExecutions s in
            let tc := set_pcState startPC tc in
            let s := with_nmpTC (Some tc) s in
            let s := if negb (Status_eqb (status tc) Active)
                     then
                       let s := with_nmpTC (Some (activate tc)) s in
                       let s := call ActivateContext s in
                       call (Inform "NMP CPU thread context activated") s
                     else s in
            let s := with_nmpStats (assign_nmpActiveCycles (cpuCurCycle env)) s in
            call (Inform "NMP CPU now executing benchmark independently from host") s
        end
    end.

(** [accepted] is the backend's answer to [nmpMemPort.sendTimingReq(pkt)]. *)
Definition handleNMPMemoryAccess (p : Packet) (accepted : bool)
    (s : CXLMemory) : bool * CXLMemory :=
  if negb (enableNMP s)
  then (false, call (Warn "NMP memory access received but NMP is disabled") s)
  else
    let success := accepted in
    let s := call (SendTimingReq NmpMemPortRef p accepted) s in
    (success, s).

(** ** Runs of the device

    The device is driven by its peers and by the event queue.  A run is a
    list of the calls made on it, each with the clock at that instant and,
    for a send, the peer's answer.  The backend memory follows the port
    protocol: it delivers a completion only for a request it has accepted
    that needs a response, once each; [backendOwes] counts the completions
    the backend still owes.  A peer answers a send without calling back into
    the device; the resubmission that follows [sendRetryReq] finds the state
    the sending call leaves, and is the next event of the run. *)

Record World : Type := {
  dev : CXLMemory;
  backendOwes : Z
}.

Inductive Event : Type :=
| HostRequest (env : Env) (p : Packet)        (* cxlRspPort.recvTimingReq *)
| ReqSend (env : Env) (accepted : bool)       (* memReqPort send event / recvReqRetry *)
| MemResponse (env : Env) (p : Packet)        (* memReqPort.recvTimingResp *)
| RspSend (env : Env) (accepted : bool)       (* cxlRspPort send event / recvRespRetry *)
| NmpAttach (cpu : BaseCPU)                   (* setNMPCPU *)
| NmpInit (connected : bool)                  (* initNMPCPU *)
| NmpStart (env : Env) (startPC stackPtr : Addr) (* startNMPExecution *)
| NmpAccess (p : Packet) (accepted : bool)    (* handleNMPMemoryAccess *)
| NmpResponse (env : Env) (p : Packet).       (* nmpMemPort.recvTimingResp *)

Definition initWorld (env : Env) (p : Params) : World :=
  {| dev := mkCXLMemory env p; backendOwes := 0 |}.

Definition on_dev (w : World) (r : Outcome CXLMemory) : Outcome World :=
  d <- r ;; Ok {| dev := d; backendOwes := backendOwes w |}.

(** [None]: the event is one the peers cannot produce in this state. *)
Definition step (w : World) (e : Event) : option (Outcome World) :=
  match e with
  | HostRequest env p =>
      Some (on_dev w (r <- recvTimingReq env p (dev w) ;; Ok (snd r)))
  | ReqSend env accepted =>
      Some (d <- CXLRequestPort_trySendTiming env accepted (dev w) ;;
            let owed :=
              match req_transmitList (memReqPort (dev w)) with
              | req :: _ => if accepted && needsResponse (pkt req) then 1 else 0
              | [] => 0
              end in
            Ok {| dev := d; backendOwes := backendOwes w + owed |})
  | MemResponse env p =>
      if 0 <? backendOwes w
      then Some (Ok {| dev := snd (CXLRequestPort_recvTimingResp env p (dev w));
                       backendOwes := backendOwes w - 1 |})
      else None
  | RspSend env accepted =>
      Some (on_dev w (CXLResponsePort_trySendTiming env accepted (dev w)))
  | NmpAttach cpu => Some (on_dev w (Ok (setNMPCPU cpu (dev w))))
  | NmpInit connected => Some (on_dev w (Ok (initNMPCPU connected (dev w))))
  | NmpStart env startPC stackPtr =>
      Some (on_dev w (Ok (startNMPExecution env startPC stackPtr (dev w))))
  | NmpAccess p accepted =>
      Some (on_dev w (Ok (snd (handleNMPMemoryAccess p accepted (dev w)))))
  | NmpResponse env p =>
      Some (on_dev w (Ok (snd (NMPMemPort_recvTimingResp env p (dev w)))))
  end.

Fixpoint run (evs : list Event) (w : World) : option (Outcome World) :=
  match evs with
  | [] => Some (Ok w)
  | e :: evs' =>
      match step w e with
      | Some (Ok w') => run evs' w'
      | r => r
      end
  end.

(** The number of entries of a queue whose packet needs a response. *)
Fixpoint count_needsResponse (l : list DeferredPacket) : Z :=
  match l with
  | [] => 0
  | d :: l' => (if needsResponse (pkt d) then 1 else 0) + count_needsResponse l'
  end.

(** The bounds of the two capacity counters. *)
Definition within_limits (s : CXLMemory) : Prop :=
  0 <= size (req_transmitList (memReqPort s)) <= reqQueueLimit (memReqPort s) /\
  0 <= outstandingResponses (cxlRspPort s) <= respQueueLimit (cxlRspPort s).

(** The limits are those of the construction parameters, the counters are
    within them, and every reserved response slot is accounted for by a
    request still queued, a completion owed by the backend, or a response
    still queued. *)
Record Inv (p : Params) (w : World) : Prop := {
  inv_req_limit : reqQueueLimit (memReqPort (dev w)) = req_size p;
  inv_rsp_limit : respQueueLimit (cxlRspPort (dev w)) = rsp_size p;
  inv_limits : within_limits (dev w);
  inv_resp_range : respQueueLimit (cxlRspPort (dev w)) < 2 ^ 32;
  inv_owes : 0 <= backendOwes w;
  inv_slots :
    outstandingResponses (cxlRspPort (dev w)) =
    count_needsResponse (req_transmitList (memReqPort (dev w)))
    + backendOwes w
    + size (rsp_transmitList (cxlRspPort (dev w)))
}.

(** The two assertions that guard the capacity counters are the ones a
    run must never trip; any other abort ends the run without bearing on
    them. *)
Definition harmless (f : Failure) : Prop :=
  f <> AssertReqQueueNotAtLimit /\ f <> AssertOutstandingNonZero.

Definition step_ok (p : Params) (r : Outcome World) : Prop :=
  match r with
  | Ok w' => Inv p w'
  | Abort f => harmless f
  end.

(** ** Sample data

    A clock of period [period] read at an instant [now] that lies on one of
    its edges, a small device, and a few packets. *)

Definition edgeEnv (period now : Z) : Env :=
  {| curTick := now;
     clockEdge := fun c => now + period * c;
     ticksToCycles := fun t => (t + period - 1) / period;
     cpuCurCycle := now / period |}.

Definition sampleParams (req_limit rsp_limit : Z) (nmp : bool) : Params :=
  {| proto_proc_lat := 2000; rsp_size := rsp_limit; req_size := req_limit;
     enable_nmp := nmp; nmp_start_addr := 4096; nmp_binary := "pointer_chase_nmp" |}.

Definition samplePacket (a : Addr) (rd wr : bool) (hd pd : Z) (t : Tick) : Packet :=
  {| pktAddr := a; pktSize := 64; isRead := rd; isWrite := wr;
     needsResponse := true; cacheResponding := false;
     headerDelay := hd; payloadDelay := pd; reqTime := t |}.

Definition sampleCPU : BaseCPU :=
  {| numThreads := 1;
     threadContexts := [ {| pcState := 0; status := Suspended |} ] |}.

(** A run that fills the request queue, has a second request refused,
    forwards the first one, receives its completion and returns it. *)
Definition sampleRun : list Event :=
  [ HostRequest (edgeEnv 1000 1000) (samplePacket 64 true false 3 4 900);
    HostRequest (edgeEnv 1000 1000) (samplePacket 128 true false 0 0 950);
    ReqSend (edgeEnv 1000 4000) true;
    MemResponse (edgeEnv 1000 9000) (samplePacket 64 true false 5 0 900);
    RspSend (edgeEnv 1000 12000) true ].

(** A device whose processing delay, 2500 ticks, is not a whole number of
    periods of a 1000-tick clock. *)
Definition unevenParams : Params :=
  {| proto_proc_lat := 2500; rsp_size := 2; req_size := 1;
     enable_nmp := true; nmp_start_addr := 4096; nmp_binary := "pointer_chase_nmp" |}.

(** A device with room for two requests that has taken two and refused a
    third: two entries are queued and the requester is stalled. *)
Definition sampleStalled : CXLMemory :=
  match run [ HostRequest (edgeEnv 1000 1000) (samplePacket 64 true false 3 4 900);
              HostRequest (edgeEnv 1000 2000) (samplePacket 128 true false 0 0 1900);
              HostRequest (edgeEnv 1000 2000) (samplePacket 192 true false 0 0 1950) ]
            (initWorld (edgeEnv 1000 0) (sampleParams 2 4 true)) with
  | Some (Ok w) => dev w
  | _ => mkCXLMemory (edgeEnv 1000 0) (sampleParams 2 4 true)
  end.

(** The device after it has taken one read request at tick 1000. *)
Definition sampleQueued : CXLMemory :=
  match recvTimingReq (edgeEnv 1000 1000) (samplePacket 64 true false 3 4 900)
                      (mkCXLMemory (edgeEnv 1000 0) (sampleParams 1 2 true)) with
  | Ok (_, s) => s
  | Abort _ => mkCXLMemory (edgeEnv 1000 0) (sampleParams 1 2 true)
  end.

(** The number of [tc->activate()] calls in a log. *)
Fixpoint activations (l : list Call) : Z :=
  match l with
  | [] => 0
  | ActivateContext :: l' => 1 + activations l'
  | _ :: l' => activations l'
  end.

(** The number of packets handed to the backend through the protocol path,
    that is by [memReqPort.sendTimingReq]. *)
Fixpoint protocol_sends (l : list Call) : Z :=
  match l with
  | [] => 0
  | SendTimingReq MemReqPortRef _ _ :: l' => 1 + protocol_sends l'
  | _ :: l' => protocol_sends l'
  end.

(** The device after the sample run up to the arrival of the completion:
    one response is queued and one slot is reserved. *)
Definition sampleAnswered : CXLMemory :=
  match run (firstn 4 sampleRun) (initWorld (edgeEnv 1000 0) (sampleParams 1 2 true)) with
  | Some (Ok w) => dev w
  | _ => mkCXLMemory (edgeEnv 1000 0) (sampleParams 1 2 true)
  end.

(** ** Observations on runs

    What a run hands to the backend and to the host, read off the call log,
    and what it takes in. *)

(** Packets the backend has taken from [memReqPort], oldest first. *)
Fixpoint forwarded (l : list Call) : list Packet :=
  match l with
  | [] => []
  | SendTimingReq MemReqPortRef p true :: l' => p :: forwarded l'
  | _ :: l' => forwarded l'
  end.

(** Packets the host has taken from [cxlRspPort], oldest first. *)
Fixpoint delivered (l : list Call) : list Packet :=
  match l with
  | [] => []
  | SendTimingResp p true :: l' => p :: delivered l'
  | _ :: l' => delivered l'
  end.

(** The packet an event puts into the request queue, if any: the packet of
    a host request that [recvTimingReq] answers with [true], as queued. *)
Definition admitted_by (w : World) (e : Event) : list Packet :=
  match e with
  | HostRequest env p =>
      match recvTimingReq env p (dev w) with
      | Ok (true, _) => [clearDelays p]
      | _ => []
      end
  | _ => []
  end.

(** The packet an event puts into the response queue, if any. *)
Definition completed_by (e : Event) : list Packet :=
  match e with
  | MemResponse _ p => [clearDelays p]
  | _ => []
  end.

Fixpoint admitted (evs : list Event) (w : World) : list Packet :=
  match evs with
  | [] => []
  | e :: evs' =>
      match step w e with
      | Some (Ok w') => admitted_by w e ++ admitted evs' w'
      | _ => []
      end
  end.

Definition req_trace (s : CXLMemory) : list Packet :=
  forwarded (calls s) ++ map pkt (req_transmitList (memReqPort s)).

Definition rsp_trace (s : CXLMemory) : list Packet :=
  delivered (calls s) ++ map pkt (rsp_transmitList (cxlRspPort s)).

(** Counting calls of one kind in the log. *)
Definition count_calls (f : Call -> bool) (l : list Call) : Z :=
  Z.of_nat (List.length (filter f l)).

Definition is_req_send (ok : bool) (c : Call) : bool :=
  match c with
  | SendTimingReq MemReqPortRef _ a => Bool.eqb a ok
  | _ => false
  end.

Definition is_rsp_send (ok : bool) (c : Call) : bool :=
  match c with
  | SendTimingResp _ a => Bool.eqb a ok
  | _ => false
  end.

Definition is_retry (c : Call) : bool :=
  match c with
  | SendRetryReq => true
  | _ => false
  end.

(** The statistics agree with what the device did. *)
Record Accounting (s : CXLMemory) : Prop := {
  acc_req_ok : reqSendSucceed (stats s) = count_calls (is_req_send true) (calls s);
  acc_req_fail : reqSendFaild (stats s) = count_calls (is_req_send false) (calls s);
  acc_rsp_ok : rspSendSucceed (stats s) = count_calls (is_rsp_send true) (calls s);
  acc_rsp_fail : rspSendFaild (stats s) = count_calls (is_rsp_send false) (calls s);
  acc_retry : reqRetryCounts (stats s) = count_calls is_retry (calls s);
  acc_req_lat :
    Z.of_nat (List.length (reqQueueLatDist (stats s))) = reqSendSucceed (stats s);
  acc_rsp_lat :
    Z.of_nat (List.length (rspQueueLatDist (stats s))) = rspSendSucceed (stats s);
  acc_stall :
    reqRetryCounts (stats s) + (if retryReq (cxlRspPort s) then 1 else 0)
    <= reqQueFullEvents (stats s) + rspQueFullEvents (stats s)
}.

(** The two halves of the device state. *)
Definition protocol_state (s : CXLMemory) :=
  (cxlRspPort s, memReqPort s, preRspTick s, stats s).

Definition bypass_state (s : CXLMemory) :=
  (nmpCPU s, nmpTC s, nmpStats s).

Definition is_bypass_event (e : Event) : bool :=
  match e with
  | NmpAttach _ | NmpInit _ | NmpStart _ _ _ | NmpAccess _ _ | NmpResponse _ _ => true
  | _ => false
  end.

(** What the constructor fixes. *)
Definition configuration (s : CXLMemory) :=
  (reqQueueLimit (memReqPort s), respQueueLimit (cxlRspPort s),
   req_protoProcLat (memReqPort s), rsp_protoProcLat (cxlRspPort s),
   enableNMP s, nmpStartAddr s, nmpBinaryPath s).

(** The events of a run that belong to one path. *)
Definition protocol_events (evs : list Event) : list Event :=
  filter (fun e => negb (is_bypass_event e)) evs.

Definition bypass_events (evs : list Event) : list Event :=
  filter is_bypass_event evs.

(** Two worlds that the protocol path cannot tell apart, and two outcomes
    of a run that it cannot tell apart. *)
Definition protocol_equiv (w1 w2 : World) : Prop :=
  protocol_state (dev w1) = protocol_state (dev w2) /\
  backendOwes w1 = backendOwes w2.

Definition same_protocol_outcome (a b : option (Outcome World)) : Prop :=
  match a, b with
  | None, None => True
  | Some (Abort f), Some (Abort g) => f = g
  | Some (Ok w1), Some (Ok w2) => protocol_equiv w1 w2
  | _, _ => False
  end.

(** Two worlds that the bypass cannot tell apart. *)
Definition bypass_equiv (w1 w2 : World) : Prop :=
  enableNMP (dev w1) = enableNMP (dev w2) /\
  bypass_state (dev w1) = bypass_state (dev w2).

(** A run in which bypass calls are interleaved with the sample run. *)
Definition sampleMixedRun : list Event :=
  [ NmpAttach sampleCPU;
    HostRequest (edgeEnv 1000 1000) (samplePacket 64 true false 3 4 900);
    NmpInit true;
    HostRequest (edgeEnv 1000 1000) (samplePacket 128 true false 0 0 950);
    NmpStart (edgeEnv 1000 2000) 4096 8192;
    ReqSend (edgeEnv 1000 4000) true;
    NmpAccess (samplePacket 256 false true 0 0 4000) true;
    MemResponse (edgeEnv 1000 9000) (samplePacket 64 true false 5 0 900);
    NmpResponse (edgeEnv 1000 10000) (samplePacket 256 false true 0 0 4000);
    RspSend (edgeEnv 1000 12000) true ].

(** ** The atomic path

    [recvAtomic], [recvAtomicBackdoor] and [processCXLMem] touch no member of
    the device; they read [protoProcLat], the clock period and the packet.
    The packet's [cxl_cmd] member, which the timing path never reads, is
    passed beside the packet; [clockPeriod] is the framework's
    [clockPeriod()] and [access_delay] the backend's answer to [sendAtomic]
    or [sendAtomicBackdoor]. *)

Inductive MemCmd : Type := M2SReq | M2SRwD | OtherCmd.

Inductive AtomicFailure : Type :=
| AtomicCacheResponding    (* panic_if(pkt->cacheResponding(), ...) *)
| AssertM2SReqIsRead       (* assert(pkt->isRead()) *)
| AssertM2SRwDIsWrite.     (* assert(pkt->isWrite()) *)

Definition processCXLMem (cxl_cmd : MemCmd) (p : Packet) (s : CXLMemory)
    : AtomicFailure + Cycles :=
  let lat := wrap64 (rsp_protoProcLat (cxlRspPort s) + rsp_protoProcLat (cxlRspPort s)) in
  match cxl_cmd with
  | M2SReq => if isRead p then inr lat else inl AssertM2SReqIsRead
  | M2SRwD => if isWrite p then inr lat else inl AssertM2SRwDIsWrite
  | OtherCmd => inr lat
  end.

Definition recvAtomic (clockPeriod : Tick) (cxl_cmd : MemCmd) (p : Packet)
    (access_delay : Tick) (s : CXLMemory) : AtomicFailure + Tick :=
  if cacheResponding p then inl AtomicCacheResponding
  else
    match processCXLMem cxl_cmd p s with
    | inl f => inl f
    | inr delay => inr (tick_add (wrap64 (delay * clockPeriod)) access_delay)
    end.

Definition recvAtomicBackdoor (clockPeriod : Tick) (cxl_cmd : MemCmd) (p : Packet)
    (access_delay : Tick) (s : CXLMemory) : AtomicFailure + Tick :=
  match processCXLMem cxl_cmd p s with
  | inl f => inl f
  | inr delay => inr (tick_add (wrap64 (delay * clockPeriod)) access_delay)
  end.

(** * Properties *)

(** ** Arithmetic and list facts *)

Lemma wrap32_small (z : Z) : 0 <= z < 2 ^ 32 -> wrap32 z = z.
Proof. intros H. unfold wrap32. now apply Z.mod_small. Qed.

Lemma wrap64_small (z : Z) : 0 <= z < 2 ^ 64 -> wrap64 z = z.
Proof. intros H. unfold wrap64. now apply Z.mod_small. Qed.

(** Within the range of the C++ types the reductions are the identity. *)
Lemma tick_add_exact (a b : Tick) : 0 <= a + b < 2 ^ 64 -> tick_add a b = a + b.
Proof. intros H. unfold tick_add. now apply wrap64_small. Qed.

Lemma tick_sub_exact (a b : Tick) : 0 <= a - b < 2 ^ 64 -> tick_sub a b = a - b.
Proof. intros H. unfold tick_sub. now apply wrap64_small. Qed.

Lemma receive_delay_exact (p : Packet) :
  0 <= headerDelay p + payloadDelay p < 2 ^ 32 ->
  receive_delay p = headerDelay p + payloadDelay p.
Proof. intros H. unfold receive_delay. now apply wrap32_small. Qed.

Lemma size_nonneg (l : list DeferredPacket) : 0 <= size l.
Proof. unfold size. lia. Qed.

Lemma size_app1 (l : list DeferredPacket) (d : DeferredPacket) :
  size (l ++ [d]) = size l + 1.
Proof. unfold size. rewrite length_app. simpl. lia. Qed.

Lemma size_cons (l : list DeferredPacket) (d : DeferredPacket) :
  size (d :: l) = size l + 1.
Proof. unfold size. simpl List.length. lia. Qed.

Lemma count_needsResponse_nonneg (l : list DeferredPacket) :
  0 <= count_needsResponse l.
Proof. induction l as [|d l IH]; simpl; [lia|]. destruct (needsResponse (pkt d)); lia. Qed.

Lemma count_needsResponse_app1 (l : list DeferredPacket) (d : DeferredPacket) :
  count_needsResponse (l ++ [d]) =
  count_needsResponse l + (if needsResponse (pkt d) then 1 else 0).
Proof.
  induction l as [|x l IH]; simpl.
  - lia.
  - rewrite IH. lia.
Qed.

(** ** Preservation of the slot accounting by each call *)

Ltac close_inv :=
  constructor; unfold within_limits; cbn;
  rewrite ?size_app1, ?count_needsResponse_app1; cbn;
  rewrite ?wrap32_small by lia;
  repeat match goal with
         | H : ?b = _ |- context [if ?b then _ else _] => rewrite H
         end;
  try lia.

Lemma Inv_HostRequest (p0 : Params) (w : World) (env : Env) (p : Packet) :
  Inv p0 w ->
  step_ok p0 (on_dev w (r <- recvTimingReq env p (dev w) ;; Ok (snd r))).
Proof.
  intros [Hrq Hrs [[Hq0 Hq] [Ho0 Ho]] Hr Hb Hs].
  unfold recvTimingReq, panic_if.
  destruct (cacheResponding p); cbn [bind on_dev step_ok].
  { split; discriminate. }
  destruct (retryReq (cxlRspPort (dev w))) eqn:Hretry; cbn [bind on_dev step_ok snd].
  { now constructor. }
  unfold reqQueueFull.
  destruct (size (req_transmitList (memReqPort (dev w))) =? reqQueueLimit (memReqPort (dev w))) eqn:Hfull.
  { cbn. close_inv. }
  assert (Hfull' := Hfull). apply Z.eqb_neq in Hfull'.
  destruct (needsResponse p) eqn:Hnr.
  - unfold respQueueFull.
    destruct (outstandingResponses (cxlRspPort (dev w)) =? respQueueLimit (cxlRspPort (dev w))) eqn:Hrf.
    { cbn. close_inv. }
    cbn. rewrite Hrf. cbn. rewrite Hretry. cbn.
    unfold schedTimingReq. cbn.
    apply Z.eqb_neq in Hrf.
    destruct (size (req_transmitList (memReqPort (dev w))) =? 0); cbn; rewrite Hfull; cbn.
    all: close_inv.
  - cbn. rewrite Hretry. cbn.
    unfold schedTimingReq. cbn.
    destruct (size (req_transmitList (memReqPort (dev w))) =? 0); cbn; rewrite Hfull; cbn.
    all: close_inv.
Qed.

Lemma retryStalledReq_queues (s : CXLMemory) :
  req_transmitList (memReqPort (retryStalledReq s)) = req_transmitList (memReqPort s) /\
  rsp_transmitList (cxlRspPort (retryStalledReq s)) = rsp_transmitList (cxlRspPort s) /\
  outstandingResponses (cxlRspPort (retryStalledReq s)) = outstandingResponses (cxlRspPort s) /\
  reqQueueLimit (memReqPort (retryStalledReq s)) = reqQueueLimit (memReqPort s) /\
  respQueueLimit (cxlRspPort (retryStalledReq s)) = respQueueLimit (cxlRspPort s).
Proof. unfold retryStalledReq. destruct (retryReq (cxlRspPort s)); cbn; auto. Qed.

Lemma Inv_ReqSend (p0 : Params) (w : World) (env : Env) (accepted : bool) :
  Inv p0 w ->
  step_ok p0 (d <- CXLRequestPort_trySendTiming env accepted (dev w) ;;
           let owed :=
             match req_transmitList (memReqPort (dev w)) with
             | req :: _ => if accepted && needsResponse (pkt req) then 1 else 0
             | [] => 0
             end in
           Ok {| dev := d; backendOwes := backendOwes w + owed |}).
Proof.
  intros [Hrq Hrs [[Hq0 Hq] [Ho0 Ho]] Hr Hb Hs].
  unfold CXLRequestPort_trySendTiming.
  destruct (req_transmitList (memReqPort (dev w))) as [|req rest] eqn:Hl;
    cbn [bind step_ok].
  { split; discriminate. }
  unfold assert. destruct (tick req <=? curTick env); cbn [bind step_ok].
  2:{ split; discriminate. }
  rewrite size_cons in Hq. cbn [count_needsResponse] in Hs.
  pose proof (size_nonneg rest) as Hrest.
  pose proof (count_needsResponse_nonneg rest) as Hcnt.
  destruct (needsResponse (pkt req)) eqn:Hnr; destruct accepted;
    cbn [andb bind step_ok].
  1, 3: match goal with
        | |- Inv _ {| dev := retryStalledReq ?s; backendOwes := _ |} =>
            destruct (retryStalledReq_queues s) as (E1 & E2 & E3 & E4 & E5)
        end;
        constructor; unfold within_limits; cbn [dev backendOwes];
        rewrite ?E1, ?E2, ?E3, ?E4, ?E5;
        destruct rest as [|next_req rest']; cbn;
        cbn [count_needsResponse] in *; rewrite ?size_cons in *; lia.
  all: constructor; unfold within_limits; cbn; rewrite ?Hl, ?size_cons; cbn;
    rewrite ?Hnr; lia.
Qed.

Lemma Inv_MemResponse (p0 : Params) (w : World) (env : Env) (p : Packet) :
  Inv p0 w -> 0 < backendOwes w ->
  Inv p0 {| dev := snd (CXLRequestPort_recvTimingResp env p (dev w));
         backendOwes := backendOwes w - 1 |}.
Proof.
  intros [Hrq Hrs [[Hq0 Hq] [Ho0 Ho]] Hr Hb Hs] Hpos.
  unfold CXLRequestPort_recvTimingResp, schedTimingResp.
  destruct (preRspTick (dev w) =? tick_minus_one); cbn.
  all: destruct (size (rsp_transmitList (cxlRspPort (dev w))) =? 0); cbn.
  all: close_inv.
Qed.

Lemma Inv_RspSend (p0 : Params) (w : World) (env : Env) (accepted : bool) :
  Inv p0 w ->
  step_ok p0 (on_dev w (CXLResponsePort_trySendTiming env accepted (dev w))).
Proof.
  intros [Hrq Hrs [[Hq0 Hq] [Ho0 Ho]] Hr Hb Hs].
  unfold CXLResponsePort_trySendTiming.
  destruct (rsp_transmitList (cxlRspPort (dev w))) as [|resp rest] eqn:Hl;
    cbn [bind on_dev step_ok].
  { split; discriminate. }
  unfold assert. destruct (tick resp <=? curTick env); cbn [bind on_dev step_ok].
  2:{ split; discriminate. }
  rewrite size_cons in Hs.
  pose proof (size_nonneg rest) as Hrest.
  pose proof (count_needsResponse_nonneg (req_transmitList (memReqPort (dev w)))) as Hcnt.
  destruct accepted.
  - cbn.
    destruct (outstandingResponses (cxlRspPort (dev w)) =? 0) eqn:Hz.
    { apply Z.eqb_eq in Hz. lia. }
    cbn. unfold reqQueueFull.
    destruct rest as [|next_resp rest']; cbn.
    all: destruct (size (req_transmitList (memReqPort (dev w))) =? reqQueueLimit (memReqPort (dev w))); cbn.
    all: try destruct (retryReq (cxlRspPort (dev w))); cbn.
    all: constructor; unfold within_limits; cbn;
      rewrite ?wrap32_small by lia; rewrite ?size_cons in *; try lia.
  - cbn. constructor; unfold within_limits; cbn; rewrite ?Hl, ?size_cons; lia.
Qed.

Lemma Inv_bypass (p0 : Params) (w : World) (d : CXLMemory) :
  Inv p0 w ->
  cxlRspPort d = cxlRspPort (dev w) ->
  memReqPort d = memReqPort (dev w) ->
  Inv p0 {| dev := d; backendOwes := backendOwes w |}.
Proof.
  intros [Hrq Hrs Hl Hr Hb Hs] E1 E2.
  constructor; unfold within_limits in *; cbn; rewrite ?E1, ?E2; auto.
Qed.

Lemma initNMPCPU_ports (c : bool) (s : CXLMemory) :
  cxlRspPort (initNMPCPU c s) = cxlRspPort s /\
  memReqPort (initNMPCPU c s) = memReqPort s.
Proof.
  unfold initNMPCPU.
  destruct (enableNMP s); cbn; auto.
  destruct c; cbn; auto.
  destruct (nmpCPU s) as [cpu|]; cbn; auto.
  destruct (0 <? numThreads cpu); cbn; auto.
Qed.

Lemma startNMPExecution_ports (env : Env) (a b : Addr) (s : CXLMemory) :
  cxlRspPort (startNMPExecution env a b s) = cxlRspPort s /\
  memReqPort (startNMPExecution env a b s) = memReqPort s.
Proof.
  unfold startNMPExecution.
  destruct (enableNMP s); cbn; auto.
  destruct (nmpCPU s); cbn; auto.
  destruct (nmpTC s) as [tc|]; cbn; auto.
  destruct (Status_eqb (status tc) Active); cbn; auto.
Qed.

Lemma handleNMPMemoryAccess_ports (p : Packet) (a : bool) (s : CXLMemory) :
  cxlRspPort (snd (handleNMPMemoryAccess p a s)) = cxlRspPort s /\
  memReqPort (snd (handleNMPMemoryAccess p a s)) = memReqPort s.
Proof. unfold handleNMPMemoryAccess. destruct (enableNMP s); cbn; auto. Qed.

Lemma NMPMemPort_recvTimingResp_ports (env : Env) (p : Packet) (s : CXLMemory) :
  cxlRspPort (snd (NMPMemPort_recvTimingResp env p s)) = cxlRspPort s /\
  memReqPort (snd (NMPMemPort_recvTimingResp env p s)) = memReqPort s.
Proof.
  unfold NMPMemPort_recvTimingResp.
  destruct (isRead p); [|destruct (isWrite p)]; cbn.
  all: destruct (nmpCPU s); cbn; auto.
Qed.

Lemma Inv_step (p0 : Params) (w : World) (e : Event) (r : Outcome World) :
  Inv p0 w -> step w e = Some r -> step_ok p0 r.
Proof.
  intros HI Hst. destruct e; cbn [step] in Hst.
  - injection Hst as <-. now apply Inv_HostRequest.
  - injection Hst as <-. now apply Inv_ReqSend.
  - destruct (0 <? backendOwes w) eqn:Hpos; [|discriminate].
    injection Hst as <-. apply Z.ltb_lt in Hpos. now apply Inv_MemResponse.
  - injection Hst as <-. now apply Inv_RspSend.
  - injection Hst as <-. now apply Inv_bypass.
  - injection Hst as <-. apply Inv_bypass; auto; apply initNMPCPU_ports.
  - injection Hst as <-. apply Inv_bypass; auto; apply startNMPExecution_ports.
  - injection Hst as <-. apply Inv_bypass; auto; apply handleNMPMemoryAccess_ports.
  - injection Hst as <-. apply Inv_bypass; auto; apply NMPMemPort_recvTimingResp_ports.
Qed.

Lemma Inv_run (p0 : Params) (evs : list Event) (w : World) (r : Outcome World) :
  Inv p0 w -> run evs w = Some r -> step_ok p0 r.
Proof.
  revert w. induction evs as [|e evs IH]; intros w HI Hrun; cbn [run] in Hrun.
  - injection Hrun as <-. exact HI.
  - destruct (step w e) as [[w'|f]|] eqn:Hst; try discriminate.
    + apply (IH w'); auto. exact (Inv_step p0 w e (Ok w') HI Hst).
    + injection Hrun as <-. exact (Inv_step p0 w e (Abort f) HI Hst).
Qed.

Lemma Inv_initWorld (env : Env) (p : Params) :
  0 <= req_size p -> 0 <= rsp_size p < 2 ^ 32 -> Inv p (initWorld env p).
Proof. intros H1 H2. constructor; unfold within_limits, size; cbn; lia. Qed.

(** ** Capacity bounds along every run *)

(** C2: in every state the device reaches from its construction, the request
    queue holds between 0 and [req_size] entries and [outstandingResponses]
    lies between 0 and [rsp_size]; no run trips the assertion that the request
    queue is below its limit when an entry is appended, nor the assertion that
    [outstandingResponses] is nonzero when a response has been sent. *)
Theorem capacity_invariant (env : Env) (p : Params) (evs : list Event)
    (r : Outcome World)
    (Hreq : 0 <= req_size p) (Hrsp : 0 <= rsp_size p < 2 ^ 32)
    (Hrun : run evs (initWorld env p) = Some r) :
  match r with
  | Ok w =>
      0 <= size (req_transmitList (memReqPort (dev w))) <= req_size p /\
      0 <= outstandingResponses (cxlRspPort (dev w)) <= rsp_size p
  | Abort f =>
      f <> AssertReqQueueNotAtLimit /\ f <> AssertOutstandingNonZero
  end.
Proof.
  pose proof (Inv_run p evs (initWorld env p) r (Inv_initWorld env p Hreq Hrsp) Hrun) as H.
  destruct r as [w|f]; cbn [step_ok] in H.
  - destruct H as [E1 E2 [Hq Ho] _ _ _]. rewrite <- E1, <- E2. split; assumption.
  - exact H.
Qed.

Lemma capacity_invariant_witness :
  exists w,
    run sampleRun (initWorld (edgeEnv 1000 0) (sampleParams 1 2 true)) = Some (Ok w) /\
    0 <= size (req_transmitList (memReqPort (dev w))) <= 1 /\
    0 <= outstandingResponses (cxlRspPort (dev w)) <= 2.
Proof.
  eexists. split.
  - vm_compute. reflexivity.
  - apply (capacity_invariant (edgeEnv 1000 0) (sampleParams 1 2 true) sampleRun (Ok _)).
    + vm_compute. discriminate.
    + vm_compute. split; [discriminate | reflexivity].
    + vm_compute. reflexivity.
Defined.

(** ** The ingress port *)

(** C1, as amended: the contract of [recvTimingReq] for an item that is not
    marked as answered by a cache.  With the retry flag already set the item
    is refused and the device is left as it was.  Otherwise, with the request
    queue at its limit, the retry flag is set and the item is refused.
    Otherwise, for an item that needs a response while [outstandingResponses]
    equals the response limit, the retry flag is set and the item is refused;
    below the limit [outstandingResponses] grows by one and the new value is
    sampled.  Every item that is not refused is appended to the request
    queue with its header and payload delays set to zero and nothing else
    changed, stamped with the current tick and scheduled at the framework
    clock's [clockEdge(protoProcLat)] plus the sum of the two delays it
    carried.  The call answers [true] exactly when the item is not
    refused. *)
Theorem recvTimingReq_contract (env : Env) (p : Packet) (s : CXLMemory)
    (Hcr : cacheResponding p = false)
    (Hslots : 0 <= outstandingResponses (cxlRspPort s) <= respQueueLimit (cxlRspPort s))
    (Hrange : respQueueLimit (cxlRspPort s) < 2 ^ 32) :
  exists (accepted : bool) (s' : CXLMemory),
    recvTimingReq env p s = Ok (accepted, s') /\
    accepted = negb (retryReq (cxlRspPort s')) /\
    if retryReq (cxlRspPort s) then
      accepted = false /\ s' = s
    else if size (req_transmitList (memReqPort s)) =? reqQueueLimit (memReqPort s) then
      accepted = false /\
      retryReq (cxlRspPort s') = true /\
      req_transmitList (memReqPort s') = req_transmitList (memReqPort s) /\
      outstandingResponses (cxlRspPort s') = outstandingResponses (cxlRspPort s) /\
      reqQueFullEvents (stats s') = reqQueFullEvents (stats s) + 1
    else if needsResponse p
            && (outstandingResponses (cxlRspPort s) =? respQueueLimit (cxlRspPort s)) then
      accepted = false /\
      retryReq (cxlRspPort s') = true /\
      req_transmitList (memReqPort s') = req_transmitList (memReqPort s) /\
      outstandingResponses (cxlRspPort s') = outstandingResponses (cxlRspPort s) /\
      rspQueFullEvents (stats s') = rspQueFullEvents (stats s) + 1
    else
      accepted = true /\
      req_transmitList (memReqPort s') =
        req_transmitList (memReqPort s) ++
        [ {| tick := wrap64 (clockEdge env (rsp_protoProcLat (cxlRspPort s))
                             + wrap32 (headerDelay p + payloadDelay p));
             pkt := {| pktAddr := pktAddr p; pktSize := pktSize p;
                       isRead := isRead p; isWrite := isWrite p;
                       needsResponse := needsResponse p;
                       cacheResponding := cacheResponding p;
                       headerDelay := 0; payloadDelay := 0;
                       reqTime := reqTime p |};
             entryTime := curTick env |} ] /\
      rsp_protoProcLat (cxlRspPort s') = rsp_protoProcLat (cxlRspPort s) /\
      if needsResponse p then
        outstandingResponses (cxlRspPort s') = outstandingResponses (cxlRspPort s) + 1 /\
        rspOutStandDist (stats s') =
          rspOutStandDist (stats s) ++ [outstandingResponses (cxlRspPort s) + 1]
      else
        outstandingResponses (cxlRspPort s') = outstandingResponses (cxlRspPort s) /\
        rspOutStandDist (stats s') = rspOutStandDist (stats s).
Proof.
  unfold recvTimingReq, panic_if. rewrite Hcr. cbn [bind].
  destruct (retryReq (cxlRspPort s)) eqn:Hretry.
  { exists false, s. rewrite Hretry. auto. }
  unfold reqQueueFull.
  destruct (size (req_transmitList (memReqPort s)) =? reqQueueLimit (memReqPort s)) eqn:Hfull.
  { cbn. eexists _, _. split; [reflexivity|]. cbn. auto 10. }
  unfold respQueueFull.
  destruct (needsResponse p) eqn:Hnr; cbn [andb].
  - destruct (outstandingResponses (cxlRspPort s) =? respQueueLimit (cxlRspPort s)) eqn:Hrf.
    { cbn. eexists _, _. split; [reflexivity|]. cbn. auto 10. }
    apply Z.eqb_neq in Hrf.
    cbn. rewrite (proj2 (Z.eqb_neq _ _) Hrf). cbn. rewrite Hretry. cbn.
    unfold schedTimingReq. cbn.
    destruct (size (req_transmitList (memReqPort s)) =? 0); cbn; rewrite Hfull; cbn.
    all: eexists _, _; split; [reflexivity|]; cbn.
    all: rewrite (wrap32_small (outstandingResponses (cxlRspPort s) + 1)) by lia.
    all: rewrite ?Hretry; unfold tick_add, receive_delay, mkDeferredPacket, clearDelays;
      cbn; rewrite ?Hnr, ?Hcr; auto 10.
  - cbn. rewrite Hretry. cbn.
    unfold schedTimingReq. cbn.
    destruct (size (req_transmitList (memReqPort s)) =? 0); cbn; rewrite Hfull; cbn.
    all: eexists _, _; split; [reflexivity|]; cbn; rewrite ?Hretry;
      unfold tick_add, receive_delay, mkDeferredPacket, clearDelays; cbn;
      rewrite ?Hnr, ?Hcr; auto 10.
Qed.

Lemma recvTimingReq_contract_witness :
  exists s',
    recvTimingReq (edgeEnv 1000 1000) (samplePacket 64 true false 3 4 900)
                  (mkCXLMemory (edgeEnv 1000 0) (sampleParams 1 2 true)) = Ok (true, s') /\
    outstandingResponses (cxlRspPort s') = 1 /\
    map tick (req_transmitList (memReqPort s')) = [3007] /\
    map (fun e => (headerDelay (pkt e), payloadDelay (pkt e)))
        (req_transmitList (memReqPort s')) = [(0, 0)].
Proof.
  destruct (recvTimingReq_contract (edgeEnv 1000 1000)
              (samplePacket 64 true false 3 4 900)
              (mkCXLMemory (edgeEnv 1000 0) (sampleParams 1 2 true)))
    as (a & s' & H1 & _ & H3).
  - reflexivity.
  - vm_compute. split; discriminate.
  - vm_compute. reflexivity.
  - cbn in H3. destruct H3 as (Ha & Hq & _ & Ho & _). subst a.
    exists s'. split; [exact H1|]. split; [exact Ho|].
    rewrite Hq. split; vm_compute; reflexivity.
Defined.

(** C1, as stated, fails for the scheduled time: a device whose processing
    delay is 2500 ticks under a clock of period 1000 holds it as 3 cycles,
    and a request carrying delays 3 and 4 taken at tick 1000 is scheduled at
    4007; now plus the processing delay plus the delay carried is 3507. *)
Lemma recvTimingReq_counterexample :
  exists s',
    recvTimingReq (edgeEnv 1000 1000) (samplePacket 64 true false 3 4 900)
                  (mkCXLMemory (edgeEnv 1000 0) unevenParams) = Ok (true, s') /\
    map tick (req_transmitList (memReqPort s')) = [4007] /\
    curTick (edgeEnv 1000 1000) + proto_proc_lat unevenParams
    + (headerDelay (samplePacket 64 true false 3 4 900)
       + payloadDelay (samplePacket 64 true false 3 4 900)) = 3507 /\
    map tick (req_transmitList (memReqPort s')) <>
    [ curTick (edgeEnv 1000 1000) + proto_proc_lat unevenParams
      + (headerDelay (samplePacket 64 true false 3 4 900)
         + payloadDelay (samplePacket 64 true false 3 4 900)) ].
Proof.
  eexists. split; [vm_compute; reflexivity|].
  split; [vm_compute; reflexivity|].
  split; [vm_compute; reflexivity|].
  vm_compute. discriminate.
Qed.

(** ** The egress port *)

(** C3: [CXLRequestPort::trySendTiming] on a queue whose head is due.  When
    the backend takes the head: the send-succeeded counter grows by one, the
    queue-wait latency [curTick - entryTime] is sampled, the head is popped,
    the new queue length is sampled, the send event is re-armed at
    [max(next.tick, clockEdge())] when an entry remains, and
    [retryStalledReq] runs on the result whatever the state: afterwards the
    retry flag is clear, and exactly when it was set one retry has been
    signalled to the host, after the send and the re-arm, and counted.  When
    the backend refuses: the send-failed counter grows by one and nothing
    else changes; the queue, the ingress port and the rest of the statistics
    are as before and neither a retry nor a re-arm is issued. *)
Theorem CXLRequestPort_trySendTiming_contract (env : Env) (s : CXLMemory)
    (req : DeferredPacket) (rest : list DeferredPacket)
    (Hl : req_transmitList (memReqPort s) = req :: rest)
    (Hdue : tick req <= curTick env) :
  (exists s1,
     CXLRequestPort_trySendTiming env true s = Ok (retryStalledReq s1) /\
     reqSendSucceed (stats s1) = reqSendSucceed (stats s) + 1 /\
     reqQueueLatDist (stats s1) =
       reqQueueLatDist (stats s) ++ [tick_sub (curTick env) (entryTime req)] /\
     req_transmitList (memReqPort s1) = rest /\
     reqQueueLenDist (stats s1) = reqQueueLenDist (stats s) ++ [size rest] /\
     calls s1 =
       calls s ++
       SendTimingReq MemReqPortRef (pkt req) true ::
       match rest with
       | [] => []
       | next_req :: _ =>
           [Schedule ReqSendEvent (Z.max (tick next_req) (clockEdge env 0))]
       end /\
     cxlRspPort s1 = cxlRspPort s /\
     reqSendFaild (stats s1) = reqSendFaild (stats s) /\
     retryReq (cxlRspPort (retryStalledReq s1)) = false /\
     reqRetryCounts (stats (retryStalledReq s1)) =
       reqRetryCounts (stats s) + (if retryReq (cxlRspPort s) then 1 else 0) /\
     calls (retryStalledReq s1) =
       calls s ++
       SendTimingReq MemReqPortRef (pkt req) true ::
       match rest with
       | [] => []
       | next_req :: _ =>
           [Schedule ReqSendEvent (Z.max (tick next_req) (clockEdge env 0))]
       end ++
       (if retryReq (cxlRspPort s) then [SendRetryReq] else []) /\
     req_transmitList (memReqPort (retryStalledReq s1)) = rest /\
     reqSendSucceed (stats (retryStalledReq s1)) = reqSendSucceed (stats s) + 1 /\
     reqQueueLatDist (stats (retryStalledReq s1)) =
       reqQueueLatDist (stats s) ++ [tick_sub (curTick env) (entryTime req)] /\
     reqQueueLenDist (stats (retryStalledReq s1)) =
       reqQueueLenDist (stats s) ++ [size rest] /\
     outstandingResponses (cxlRspPort (retryStalledReq s1)) =
       outstandingResponses (cxlRspPort s) /\
     rsp_transmitList (cxlRspPort (retryStalledReq s1)) =
       rsp_transmitList (cxlRspPort s)) /\
  (exists s2,
     CXLRequestPort_trySendTiming env false s = Ok s2 /\
     s2 = with_stats inc_reqSendFaild
            (call (SendTimingReq MemReqPortRef (pkt req) false) s) /\
     reqSendFaild (stats s2) = reqSendFaild (stats s) + 1 /\
     reqSendSucceed (stats s2) = reqSendSucceed (stats s) /\
     reqRetryCounts (stats s2) = reqRetryCounts (stats s) /\
     memReqPort s2 = memReqPort s /\
     cxlRspPort s2 = cxlRspPort s /\
     calls s2 = calls s ++ [SendTimingReq MemReqPortRef (pkt req) false]).
Proof.
  unfold CXLRequestPort_trySendTiming. rewrite Hl.
  apply Z.leb_le in Hdue. unfold assert. rewrite Hdue. cbn [bind].
  split.
  - eexists. split; [reflexivity|].
    unfold retryStalledReq.
    destruct rest as [|next_req rest']; destruct (retryReq (cxlRspPort s)) eqn:Hretry;
      cbn; rewrite ?Hretry; cbn; rewrite <- ?app_assoc; cbn; rewrite ?app_nil_r;
      repeat split; auto; lia.
  - eexists. split; [reflexivity|]. cbn. auto 10.
Qed.

Lemma CXLRequestPort_trySendTiming_contract_witness :
  exists s',
    CXLRequestPort_trySendTiming (edgeEnv 1000 5000) true sampleStalled = Ok s' /\
    retryReq (cxlRspPort sampleStalled) = true /\
    retryReq (cxlRspPort s') = false /\
    reqRetryCounts (stats s') = 1 /\
    map tick (req_transmitList (memReqPort s')) = [4000] /\
    calls s' =
      calls sampleStalled ++
      [ SendTimingReq MemReqPortRef
          (clearDelays (samplePacket 64 true false 3 4 900)) true;
        Schedule ReqSendEvent 5000;
        SendRetryReq ].
Proof.
  destruct (CXLRequestPort_trySendTiming_contract (edgeEnv 1000 5000) sampleStalled
              {| tick := 3007;
                 pkt := clearDelays (samplePacket 64 true false 3 4 900);
                 entryTime := 1000 |}
              [ {| tick := 4000;
                   pkt := clearDelays (samplePacket 128 true false 0 0 1900);
                   entryTime := 2000 |} ])
    as [(s1 & H1 & _ & _ & _ & _ & _ & _ & _ & H9 & H10 & H11 & H12 & _) _].
  - reflexivity.
  - vm_compute. discriminate.
  - exists (retryStalledReq s1). split; [exact H1|].
    split; [reflexivity|]. split; [exact H9|].
    split; [rewrite H10; reflexivity|].
    split; [rewrite H12; reflexivity|].
    rewrite H11. reflexivity.
Defined.

(** ** The request-side queue-full counter *)

(** C4: the code at a run in which no request is ever refused.  A device with
    room for one request takes a request, forwards it, takes a second one
    (both answered [true]) and receives the completion of the first; the
    counter still reads 0.  The successful send of that completion evaluates
    [reqQueueFull()] while the request queue holds its one entry, and the
    counter reads 1 afterwards. *)
Theorem reqQueFullEvents_bumped_by_response_send :
  exists s1 s2 s3 s4 s5,
    recvTimingReq (edgeEnv 1000 1000) (samplePacket 64 true false 3 4 900)
      (mkCXLMemory (edgeEnv 1000 0) (sampleParams 1 2 true)) = Ok (true, s1) /\
    CXLRequestPort_trySendTiming (edgeEnv 1000 4000) true s1 = Ok s2 /\
    recvTimingReq (edgeEnv 1000 5000) (samplePacket 128 true false 0 0 4900) s2
      = Ok (true, s3) /\
    CXLRequestPort_recvTimingResp (edgeEnv 1000 9000)
      (samplePacket 64 true false 5 0 900) s3 = (true, s4) /\
    reqQueFullEvents (stats s4) = 0 /\
    CXLResponsePort_trySendTiming (edgeEnv 1000 12000) true s4 = Ok s5 /\
    reqQueFullEvents (stats s5) = 1.
Proof.
  do 5 eexists.
  split; [cbv; reflexivity|].
  split; [cbv; reflexivity|].
  split; [cbv; reflexivity|].
  split; [cbv; reflexivity|].
  split; [cbv; reflexivity|].
  split; cbv; reflexivity.
Qed.

(** ** Backend completions *)

(** C5, as amended: a completion received from the backend is appended to
    the response queue with its header and payload delays set to zero and
    nothing else changed, stamped with the current tick and scheduled at the
    framework clock's [clockEdge(protoProcLat)] plus the sum of the two delays
    it carried; the call answers [true]. *)
Theorem CXLRequestPort_recvTimingResp_schedule (env : Env) (p : Packet) (s : CXLMemory) :
  fst (CXLRequestPort_recvTimingResp env p s) = true /\
  rsp_transmitList (cxlRspPort (snd (CXLRequestPort_recvTimingResp env p s))) =
    rsp_transmitList (cxlRspPort s) ++
    [ {| tick := tick_add (clockEdge env (req_protoProcLat (memReqPort s)))
                          (receive_delay p);
         pkt := clearDelays p;
         entryTime := curTick env |} ] /\
  headerDelay (clearDelays p) = 0 /\
  payloadDelay (clearDelays p) = 0 /\
  tick_add (clockEdge env (req_protoProcLat (memReqPort s))) (receive_delay p) =
    wrap64 (clockEdge env (req_protoProcLat (memReqPort s))
            + wrap32 (headerDelay p + payloadDelay p)) /\
  clearDelays p =
    {| pktAddr := pktAddr p; pktSize := pktSize p;
       isRead := isRead p; isWrite := isWrite p;
       needsResponse := needsResponse p;
       cacheResponding := cacheResponding p;
       headerDelay := 0; payloadDelay := 0;
       reqTime := reqTime p |} /\
  req_protoProcLat (memReqPort (snd (CXLRequestPort_recvTimingResp env p s))) =
    req_protoProcLat (memReqPort s).
Proof.
  unfold CXLRequestPort_recvTimingResp, schedTimingResp.
  destruct (preRspTick s =? tick_minus_one); cbn.
  all: destruct (size (rsp_transmitList (cxlRspPort s)) =? 0); cbn; auto 10.
Qed.

(** C5, as stated, fails for a completion that carries a delay.  On the
    device that has taken a request at tick 1000 and forwarded it at tick
    4000, the completion arriving at tick 9000 with a header delay of 5,
    under a processing delay of 2000 ticks, is scheduled at 11005, not at
    11000. *)
Lemma CXLRequestPort_recvTimingResp_counterexample :
  exists w e,
    run (firstn 3 sampleRun) (initWorld (edgeEnv 1000 0) (sampleParams 1 2 true))
      = Some (Ok w) /\
    backendOwes w = 1 /\
    rsp_transmitList
      (cxlRspPort
         (snd (CXLRequestPort_recvTimingResp (edgeEnv 1000 9000)
                 (samplePacket 64 true false 5 0 900) (dev w)))) = [e] /\
    tick e = 11005 /\
    curTick (edgeEnv 1000 9000) + proto_proc_lat (sampleParams 1 2 true) = 11000 /\
    clockEdge (edgeEnv 1000 9000) (req_protoProcLat (memReqPort (dev w))) = 11000 /\
    tick e <> curTick (edgeEnv 1000 9000) + proto_proc_lat (sampleParams 1 2 true).
Proof.
  eexists. eexists. split; [vm_compute; reflexivity|].
  split; [vm_compute; reflexivity|].
  split; [vm_compute; reflexivity|].
  vm_compute. repeat split. discriminate.
Qed.

(** C6: the code at the first completion of a run.  The device is built with
    [preRspTick = 0], which is not the value [-1] that [recvTimingResp] tests
    for, so the first completion already contributes a sample: the number of
    cycles from tick 0 to the current clock edge, 9 cycles for a first
    completion at tick 9000 under a clock of period 1000. *)
Theorem first_completion_is_sampled :
  (forall (env0 env : Env) (params : Params) (p : Packet),
     memToCXLCtrlRsp (stats (mkCXLMemory env0 params)) = [] /\
     memToCXLCtrlRsp
       (stats (snd (CXLRequestPort_recvTimingResp env p (mkCXLMemory env0 params)))) =
       [ticksToCycles env (tick_sub (clockEdge env 0) 0)]) /\
  memToCXLCtrlRsp
    (stats (snd (CXLRequestPort_recvTimingResp (edgeEnv 1000 9000)
                   (samplePacket 64 true false 5 0 900)
                   (mkCXLMemory (edgeEnv 1000 0) (sampleParams 1 2 true))))) = [9].
Proof.
  split.
  - intros env0 env params p. split; [reflexivity|].
    unfold CXLRequestPort_recvTimingResp, schedTimingResp. cbn.
    reflexivity.
  - vm_compute. reflexivity.
Qed.

(** ** The bypass coordinator *)

Lemma activations_app (l1 l2 : list Call) :
  activations (l1 ++ l2) = activations l1 + activations l2.
Proof.
  induction l1 as [|c l1 IH]; cbn [app activations].
  - lia.
  - destruct c; rewrite ?IH; lia.
Qed.

(** C7: [startNMPExecution] with the bypass enabled, a processing unit
    attached and a thread context acquired adds exactly one to the execution
    counter (a second call adds one more), sets the context's program counter
    to [startPC], activates the context exactly when it is not already
    active, and stores the unit's current cycle as the active-cycle baseline.
    With the bypass disabled, no unit or no context, the device is unchanged
    apart from one warning. *)
Theorem startNMPExecution_contract (env : Env) (startPC stackPtr : Addr) (s : CXLMemory) :
  let s' := startNMPExecution env startPC stackPtr s in
  match enableNMP s, nmpCPU s, nmpTC s with
  | true, Some cpu, Some tc =>
      nmpExecutions (nmpStats s') = nmpExecutions (nmpStats s) + 1 /\
      nmpExecutions (nmpStats (startNMPExecution env startPC stackPtr s')) =
        nmpExecutions (nmpStats s) + 2 /\
      nmpTC s' = Some {| pcState := startPC; status := Active |} /\
      activations (calls s') =
        activations (calls s) + (if Status_eqb (status tc) Active then 0 else 1) /\
      nmpActiveCycles (nmpStats s') = cpuCurCycle env
  | _, _, _ => exists msg, s' = call (Warn msg) s
  end.
Proof.
  unfold startNMPExecution.
  destruct (enableNMP s) eqn:He; cbn [negb].
  2:{ eexists; reflexivity. }
  destruct (nmpCPU s) as [cpu|] eqn:Hc.
  2:{ eexists; reflexivity. }
  destruct (nmpTC s) as [tc|] eqn:Ht.
  2:{ eexists; reflexivity. }
  destruct tc as [pc0 st]. cbn [set_pcState status pcState].
  destruct st; cbn; rewrite ?He, ?Hc; cbn; rewrite ?activations_app; cbn;
    repeat split; lia.
Qed.

Lemma protocol_sends_app (l1 l2 : list Call) :
  protocol_sends (l1 ++ l2) = protocol_sends l1 + protocol_sends l2.
Proof.
  induction l1 as [|c l1 IH]; cbn [app protocol_sends].
  - lia.
  - destruct c as [| |port q b| | | | |]; rewrite ?IH; try lia.
    destruct port; rewrite ?IH; lia.
Qed.

(** Scenario D of the specification: the unit is attached and initialised,
    then started twice; the counter reads 1 and then 2, and the context is
    activated once. *)
Example startNMPExecution_twice :
  let s0 := initNMPCPU true
              (setNMPCPU sampleCPU
                 (mkCXLMemory (edgeEnv 1000 0) (sampleParams 1 2 true))) in
  let s1 := startNMPExecution (edgeEnv 1000 2000) 4096 8192 s0 in
  let s2 := startNMPExecution (edgeEnv 1000 3000) 4096 8192 s1 in
  nmpExecutions (nmpStats s1) = 1 /\
  nmpExecutions (nmpStats s2) = 2 /\
  nmpTC s2 = Some {| pcState := 4096; status := Active |} /\
  activations (calls s2) = 1.
Proof. vm_compute. repeat split. Qed.

(** C8: [handleNMPMemoryAccess] answers [false] when the bypass is disabled
    and the backend's own answer when it is enabled.  When enabled the packet
    goes to the backend through [nmpMemPort] and through nothing else, once.
    Either way no counter, no queue, no reserved slot and no retry flag
    changes, so a packet the backend refuses is held nowhere in the device. *)
Theorem handleNMPMemoryAccess_contract (p : Packet) (accepted : bool) (s : CXLMemory) :
  let r := handleNMPMemoryAccess p accepted s in
  fst r = enableNMP s && accepted /\
  calls (snd r) =
    calls s ++
    [ if enableNMP s then SendTimingReq NmpMemPortRef p accepted
      else Warn "NMP memory access received but NMP is disabled" ] /\
  protocol_sends (calls (snd r)) = protocol_sends (calls s) /\
  cxlRspPort (snd r) = cxlRspPort s /\
  memReqPort (snd r) = memReqPort s /\
  stats (snd r) = stats s /\
  nmpStats (snd r) = nmpStats s /\
  preRspTick (snd r) = preRspTick s.
Proof.
  unfold handleNMPMemoryAccess.
  destruct (enableNMP s); cbn; rewrite protocol_sends_app; cbn; repeat split; lia.
Qed.

(** C9, as amended: for every completion received on the bypass port the
    latency [curTick - pkt->req->time()] is sampled, the read counter grows by
    one for a read, otherwise the write counter grows by one for a write,
    otherwise neither counter moves; the packet is deleted and the call
    answers [true].  The outcome does not depend on whether a processing unit
    is attached, and neither the unit nor its thread context is touched. *)
Theorem NMPMemPort_recvTimingResp_contract (env : Env) (p : Packet) (s : CXLMemory) :
  let r := NMPMemPort_recvTimingResp env p s in
  fst r = true /\
  nmpAccessLatency (nmpStats (snd r)) =
    nmpAccessLatency (nmpStats s) ++ [tick_sub (curTick env) (reqTime p)] /\
  nmpMemReads (nmpStats (snd r)) =
    nmpMemReads (nmpStats s) + (if isRead p then 1 else 0) /\
  nmpMemWrites (nmpStats (snd r)) =
    nmpMemWrites (nmpStats s) + (if isRead p then 0 else if isWrite p then 1 else 0) /\
  calls (snd r) = calls s ++ [DeletePacket p] /\
  nmpCPU (snd r) = nmpCPU s /\
  nmpTC (snd r) = nmpTC s /\
  (forall c : option BaseCPU,
     NMPMemPort_recvTimingResp env p (with_nmpCPU c s) =
     (fst r, with_nmpCPU c (snd r))).
Proof.
  unfold NMPMemPort_recvTimingResp.
  destruct (isRead p); [|destruct (isWrite p)]; cbn.
  all: destruct (nmpCPU s) eqn:Hcpu; cbn; repeat split; try lia; try exact Hcpu.
  all: intros [c|]; reflexivity.
Qed.

(** C9, as stated, fails for a completion that is neither a read nor a
    write: neither counter moves. *)
Lemma NMPMemPort_recvTimingResp_counterexample :
  let s := mkCXLMemory (edgeEnv 1000 0) (sampleParams 1 2 true) in
  let s' := snd (NMPMemPort_recvTimingResp (edgeEnv 1000 5000)
                   (samplePacket 64 false false 0 0 4000) s) in
  nmpMemReads (nmpStats s') = nmpMemReads (nmpStats s) /\
  nmpMemWrites (nmpStats s') = nmpMemWrites (nmpStats s) /\
  ~ ((nmpMemReads (nmpStats s') = nmpMemReads (nmpStats s) + 1 /\
      nmpMemWrites (nmpStats s') = nmpMemWrites (nmpStats s)) \/
     (nmpMemReads (nmpStats s') = nmpMemReads (nmpStats s) /\
      nmpMemWrites (nmpStats s') = nmpMemWrites (nmpStats s) + 1)).
Proof.
  cbv. repeat split. intros [[H _]|[_ H]]; discriminate.
Qed.

(** C10: [getPort] asked for [nmp_mem_port] panics when the bypass is
    disabled and returns the bypass memory port when it is enabled. *)
Theorem getPort_nmp_mem_port (PioDevice_getPort : string -> Z -> Outcome PortRef)
    (s : CXLMemory) (idx : Z) :
  getPort PioDevice_getPort s "nmp_mem_port" idx =
    if enableNMP s then Ok NmpMemPortRef else Abort PanicNMPPortDisabled.
Proof.
  unfold getPort. cbn [String.eqb Ascii.eqb Bool.eqb].
  destruct (enableNMP s); reflexivity.
Qed.

(** * Further properties of the device *)

(** ** Sending responses to the host *)

(** X1: [CXLResponsePort::trySendTiming] on a response queue whose head is
    due, with at least one reserved slot.  When the host takes the head: the
    counters and distributions are updated as on the request side, the head
    is popped, [outstandingResponses] drops by one and is sampled, the send
    event is re-armed when an entry remains, and the stalled requester is
    released exactly when the retry flag is set and the request queue is below
    its limit (it stays stalled when the request queue is at its limit).
    When the host refuses, only the send-failed counter moves. *)
Theorem CXLResponsePort_trySendTiming_contract (env : Env) (s : CXLMemory)
    (resp : DeferredPacket) (rest : list DeferredPacket)
    (Hl : rsp_transmitList (cxlRspPort s) = resp :: rest)
    (Hdue : tick resp <= curTick env)
    (Hout : 0 < outstandingResponses (cxlRspPort s) < 2 ^ 32) :
  let full := size (req_transmitList (memReqPort s)) =? reqQueueLimit (memReqPort s) in
  let release := retryReq (cxlRspPort s) && negb full in
  (exists s1,
     CXLResponsePort_trySendTiming env true s = Ok s1 /\
     rspSendSucceed (stats s1) = rspSendSucceed (stats s) + 1 /\
     rspQueueLatDist (stats s1) =
       rspQueueLatDist (stats s) ++ [tick_sub (curTick env) (entryTime resp)] /\
     rsp_transmitList (cxlRspPort s1) = rest /\
     rspQueueLenDist (stats s1) = rspQueueLenDist (stats s) ++ [size rest] /\
     outstandingResponses (cxlRspPort s1) = outstandingResponses (cxlRspPort s) - 1 /\
     rspOutStandDist (stats s1) =
       rspOutStandDist (stats s) ++ [outstandingResponses (cxlRspPort s) - 1] /\
     memReqPort s1 = memReqPort s /\
     retryReq (cxlRspPort s1) = retryReq (cxlRspPort s) && full /\
     reqRetryCounts (stats s1) = reqRetryCounts (stats s) + (if release then 1 else 0) /\
     calls s1 =
       calls s ++
       SendTimingResp (pkt resp) true ::
       match rest with
       | [] => []
       | next_resp :: _ =>
           [Schedule RspSendEvent (Z.max (tick next_resp) (clockEdge env 0))]
       end ++
       (if release then [SendRetryReq] else [])) /\
  CXLResponsePort_trySendTiming env false s =
    Ok (with_stats inc_rspSendFaild (call (SendTimingResp (pkt resp) false) s)).
Proof.
  intros full release. subst full release.
  unfold CXLResponsePort_trySendTiming. rewrite Hl.
  apply Z.leb_le in Hdue. unfold assert. rewrite Hdue. cbn [bind].
  split; [|reflexivity].
  cbn.
  destruct (outstandingResponses (cxlRspPort s) =? 0) eqn:Hz.
  { apply Z.eqb_eq in Hz. lia. }
  cbn. unfold reqQueueFull.
  destruct rest as [|next_resp rest']; cbn.
  all: destruct (size (req_transmitList (memReqPort s)) =? reqQueueLimit (memReqPort s));
    cbn.
  all: destruct (retryReq (cxlRspPort s)) eqn:Hretry; cbn.
  all: eexists; split; [reflexivity|]; cbn.
  all: rewrite ?wrap32_small by lia; rewrite <- ?app_assoc; cbn; rewrite ?Hretry.
  all: repeat split; try lia.
Qed.

Lemma CXLResponsePort_trySendTiming_contract_witness :
  exists s1,
    CXLResponsePort_trySendTiming (edgeEnv 1000 12000) true sampleAnswered = Ok s1 /\
    outstandingResponses (cxlRspPort s1) = 0 /\
    rsp_transmitList (cxlRspPort s1) = [].
Proof.
  destruct (CXLResponsePort_trySendTiming_contract (edgeEnv 1000 12000) sampleAnswered
              {| tick := 11005;
                 pkt := clearDelays (samplePacket 64 true false 5 0 900);
                 entryTime := 9000 |} [])
    as [(s1 & H1 & _ & _ & H4 & _ & H6 & _) _].
  - reflexivity.
  - vm_compute. discriminate.
  - vm_compute. split; reflexivity.
  - exists s1. split; [exact H1|]. split; [rewrite H6; reflexivity | exact H4].
Defined.

(** ** When a send aborts *)

(** X2: [CXLRequestPort::trySendTiming] aborts in exactly two situations: on
    an empty queue, and when the head of the queue is not yet due.  Only the
    head is looked at: a head scheduled in the future aborts the call even
    when entries behind it are due, the queue being served in insertion
    order. *)
Theorem CXLRequestPort_trySendTiming_abort_iff (env : Env) (accepted : bool)
    (s : CXLMemory) (f : Failure) :
  CXLRequestPort_trySendTiming env accepted s = Abort f <->
  match req_transmitList (memReqPort s) with
  | [] => f = AssertListNotEmpty
  | req :: _ => curTick env < tick req /\ f = AssertTickDue
  end.
Proof.
  unfold CXLRequestPort_trySendTiming, assert.
  destruct (req_transmitList (memReqPort s)) as [|req rest].
  - split; [intros H; now inversion H | intros ->; reflexivity].
  - destruct (tick req <=? curTick env) eqn:Hdue; cbn [bind].
    + apply Z.leb_le in Hdue. split.
      * destruct accepted; discriminate.
      * intros [H _]. lia.
    + apply Z.leb_gt in Hdue. split.
      * intros H. inversion H. auto.
      * intros [_ ->]. reflexivity.
Qed.

(** X3: [CXLResponsePort::trySendTiming] aborts on an empty queue, on a head
    that is not yet due, and, after the host has taken the head, when no
    response slot is reserved; in no other situation. *)
Theorem CXLResponsePort_trySendTiming_abort_iff (env : Env) (accepted : bool)
    (s : CXLMemory) (f : Failure) :
  CXLResponsePort_trySendTiming env accepted s = Abort f <->
  match rsp_transmitList (cxlRspPort s) with
  | [] => f = AssertListNotEmpty
  | resp :: _ =>
      (curTick env < tick resp /\ f = AssertTickDue) \/
      (tick resp <= curTick env /\ accepted = true /\
       outstandingResponses (cxlRspPort s) = 0 /\ f = AssertOutstandingNonZero)
  end.
Proof.
  unfold CXLResponsePort_trySendTiming, assert.
  destruct (rsp_transmitList (cxlRspPort s)) as [|resp rest].
  - split; [intros H; now inversion H | intros ->; reflexivity].
  - destruct (tick resp <=? curTick env) eqn:Hdue; cbn [bind].
    + apply Z.leb_le in Hdue. destruct accepted.
      * cbn. destruct (outstandingResponses (cxlRspPort s) =? 0) eqn:Hz; cbn.
        -- apply Z.eqb_eq in Hz. split.
           ++ intros H. inversion H. right. auto.
           ++ intros [[H _]|(_ & _ & _ & ->)]; [lia | reflexivity].
        -- apply Z.eqb_neq in Hz. unfold reqQueueFull.
           split.
           ++ destruct rest; cbn;
                destruct (size (req_transmitList (memReqPort s))
                          =? reqQueueLimit (memReqPort s)); cbn;
                destruct (retryReq (cxlRspPort s)); cbn; discriminate.
           ++ intros [[H _]|(_ & _ & H & _)]; [lia | contradiction].
      * split; [discriminate|].
        intros [[H _]|(_ & H & _)]; [lia | discriminate].
    + apply Z.leb_gt in Hdue. split.
      * intros H. inversion H. left. auto.
      * intros [[_ ->]|(H & _)]; [reflexivity | lia].
Qed.

(** ** Releasing a stalled requester *)

(** X4: [retryStalledReq] leaves the retry flag clear; it signals the
    requester once and counts the retry exactly when the flag was set, and is
    the identity otherwise, so that calling it a second time changes
    nothing. *)
Theorem retryStalledReq_idempotent (s : CXLMemory) :
  retryStalledReq (retryStalledReq s) = retryStalledReq s /\
  retryReq (cxlRspPort (retryStalledReq s)) = false /\
  reqRetryCounts (stats (retryStalledReq s)) =
    reqRetryCounts (stats s) + (if retryReq (cxlRspPort s) then 1 else 0) /\
  calls (retryStalledReq s) =
    calls s ++ (if retryReq (cxlRspPort s) then [SendRetryReq] else []) /\
  (retryReq (cxlRspPort s) = false -> retryStalledReq s = s).
Proof.
  unfold retryStalledReq.
  destruct (retryReq (cxlRspPort s)) eqn:Hr; cbn; rewrite ?Hr, ?app_nil_r.
  - repeat split; try lia; discriminate.
  - repeat split; lia.
Qed.

(** ** Appending to the request queue *)

(** X5: [schedTimingReq] aborts exactly when the request queue is at its
    limit.  Below the limit it appends the packet at the tail, stamps it with
    the current tick, samples the new length and arms the send event only when
    the queue was empty. *)
Theorem schedTimingReq_guard (env : Env) (p : Packet) (when : Tick) (s : CXLMemory) :
  if size (req_transmitList (memReqPort s)) =? reqQueueLimit (memReqPort s)
  then schedTimingReq env p when s = Abort AssertReqQueueNotAtLimit
  else exists s',
    schedTimingReq env p when s = Ok s' /\
    req_transmitList (memReqPort s') =
      req_transmitList (memReqPort s) ++
      [ {| tick := when; pkt := p; entryTime := curTick env |} ] /\
    reqQueueLenDist (stats s') =
      reqQueueLenDist (stats s) ++ [size (req_transmitList (memReqPort s)) + 1] /\
    calls s' =
      calls s ++
      (match req_transmitList (memReqPort s) with
       | [] => [Schedule ReqSendEvent when]
       | _ :: _ => []
       end) /\
    cxlRspPort s' = cxlRspPort s.
Proof.
  unfold schedTimingReq, assert.
  destruct (size (req_transmitList (memReqPort s)) =? reqQueueLimit (memReqPort s)) eqn:Hfull.
  - destruct (size (req_transmitList (memReqPort s)) =? 0); cbn; rewrite Hfull; reflexivity.
  - destruct (req_transmitList (memReqPort s)) as [|d l] eqn:Hl.
    + change (size [] =? 0) with true. cbn. rewrite Hl, Hfull. cbn.
      eexists. split; [reflexivity|]. cbn. rewrite Hl. repeat split.
    + assert (Hnz : (size (d :: l) =? 0) = false).
      { apply Z.eqb_neq. rewrite size_cons. pose proof (size_nonneg l). lia. }
      rewrite Hnz. cbn. rewrite Hl, Hfull. cbn.
      eexists. split; [reflexivity|]. cbn. rewrite Hl.
      change (d :: l ++ [mkDeferredPacket env p when])
        with ((d :: l) ++ [mkDeferredPacket env p when]).
      rewrite size_app1, app_nil_r. repeat split.
Qed.

(** ** Looking up a port *)

(** X6: [getPort] itself panics for one request only, the bypass memory
    port of a device whose bypass is disabled.  The four names it knows are
    answered without [PioDevice::getPort] being asked; for any other name the
    outcome is that of [PioDevice::getPort], so any other failure is a
    failure of that function on a name that is none of the four. *)
Theorem getPort_abort_iff (PioDevice_getPort : string -> Z -> Outcome PortRef)
    (s : CXLMemory) (if_name : string) (idx : Z) (f : Failure) :
  (getPort PioDevice_getPort s if_name idx = Abort f <->
   (if_name = "nmp_mem_port"%string /\ enableNMP s = false /\ f = PanicNMPPortDisabled) \/
   (if_name <> "cxl_rsp_port"%string /\ if_name <> "mem_req_port"%string /\
    if_name <> "nmp_mem_port"%string /\ if_name <> "dma"%string /\
    PioDevice_getPort if_name idx = Abort f)) /\
  (if_name = "cxl_rsp_port"%string \/ if_name = "mem_req_port"%string \/
   if_name = "nmp_mem_port"%string \/ if_name = "dma"%string \/
   getPort PioDevice_getPort s if_name idx = PioDevice_getPort if_name idx).
Proof.
  unfold getPort.
  destruct (String.eqb if_name "cxl_rsp_port") eqn:H1.
  { apply String.eqb_eq in H1. split; [|auto].
    split; [discriminate|]. intros [(E & _)|(E & _)]; [subst; discriminate | contradiction]. }
  destruct (String.eqb if_name "mem_req_port") eqn:H2.
  { apply String.eqb_eq in H2. split; [|auto].
    split; [discriminate|].
    intros [(E & _)|(_ & E & _)]; [subst; discriminate | contradiction]. }
  destruct (String.eqb if_name "nmp_mem_port") eqn:H3.
  { apply String.eqb_eq in H3. split; [|auto]. split.
    - destruct (enableNMP s); [discriminate|]. intros H. inversion H. auto.
    - intros [(_ & -> & ->)|(_ & _ & E & _)]; [reflexivity | contradiction]. }
  destruct (String.eqb if_name "dma") eqn:H4.
  { apply String.eqb_eq in H4. split; [|auto 6].
    split; [discriminate|].
    intros [(E & _)|(_ & _ & _ & E & _)]; [subst; discriminate | contradiction]. }
  apply String.eqb_neq in H1, H2, H3, H4.
  split; [|auto 10]. split.
  - intros H. right. auto 10.
  - intros [(E & _)|(_ & _ & _ & _ & H)]; [contradiction | exact H].
Qed.

(** ** Intervals between completions *)

Lemma recvTimingResp_interval (env : Env) (p : Packet) (s : CXLMemory) :
  preRspTick (snd (CXLRequestPort_recvTimingResp env p s)) = clockEdge env 0 /\
  memToCXLCtrlRsp (stats (snd (CXLRequestPort_recvTimingResp env p s))) =
    memToCXLCtrlRsp (stats s) ++
    (if preRspTick s =? tick_minus_one then []
     else [ticksToCycles env (tick_sub (clockEdge env 0) (preRspTick s))]).
Proof.
  unfold CXLRequestPort_recvTimingResp, schedTimingResp.
  destruct (preRspTick s =? tick_minus_one); cbn -[tick_minus_one].
  all: destruct (size (rsp_transmitList (cxlRspPort s)) =? 0); cbn -[tick_minus_one].
  all: rewrite ?app_nil_r; split; reflexivity.
Qed.

(** X7: once a completion has been received, the next one samples the
    number of cycles between the two clock edges at which they arrived; the
    only exception is a first arrival whose clock edge is the all-ones tick,
    which the test against [-1] mistakes for "no completion yet". *)
Theorem consecutive_completions_interval (env1 env2 : Env) (p1 p2 : Packet) (s : CXLMemory)
    (Hedge : clockEdge env1 0 <> tick_minus_one) :
  let s1 := snd (CXLRequestPort_recvTimingResp env1 p1 s) in
  let s2 := snd (CXLRequestPort_recvTimingResp env2 p2 s1) in
  preRspTick s1 = clockEdge env1 0 /\
  memToCXLCtrlRsp (stats s2) =
    memToCXLCtrlRsp (stats s1) ++
    [ticksToCycles env2 (tick_sub (clockEdge env2 0) (clockEdge env1 0))] /\
  preRspTick s2 = clockEdge env2 0.
Proof.
  intros s1 s2.
  destruct (recvTimingResp_interval env1 p1 s) as [E1 _].
  destruct (recvTimingResp_interval env2 p2 s1) as [E2 E3].
  fold s1 in E1. fold s2 in E2, E3.
  apply Z.eqb_neq in Hedge.
  rewrite E3, E1, Hedge. auto.
Qed.

Lemma consecutive_completions_interval_witness :
  let s := mkCXLMemory (edgeEnv 1000 0) (sampleParams 4 4 true) in
  let s1 := snd (CXLRequestPort_recvTimingResp (edgeEnv 1000 9000)
                   (samplePacket 64 true false 0 0 900) s) in
  let s2 := snd (CXLRequestPort_recvTimingResp (edgeEnv 1000 12000)
                   (samplePacket 128 true false 0 0 950) s1) in
  memToCXLCtrlRsp (stats s2) = memToCXLCtrlRsp (stats s1) ++ [3].
Proof.
  intros s s1 s2.
  destruct (consecutive_completions_interval (edgeEnv 1000 9000) (edgeEnv 1000 12000)
              (samplePacket 64 true false 0 0 900)
              (samplePacket 128 true false 0 0 950) s) as (_ & H & _).
  - vm_compute. discriminate.
  - exact H.
Defined.

(** ** Order and conservation of packets along runs *)

Ltac split_conds :=
  repeat first
    [ progress cbn
    | match goal with
      | H : ?b = _ |- context [if ?b then _ else _] => rewrite H
      | |- context [if ?b then _ else _] =>
          lazymatch b with
          | context [if _ then _ else _] => fail
          | _ => destruct b eqn:?
          end
      end ].

Ltac split_opts :=
  repeat first
    [ progress cbn
    | match goal with
      | H : ?b = _ |- context [if ?b then _ else _] => rewrite H
      | H : ?o = _ |- context [match ?o with Some _ => _ | None => _ end] => rewrite H
      | |- context [if ?b then _ else _] =>
          lazymatch b with
          | context [if _ then _ else _] => fail
          | context [match _ with Some _ => _ | None => _ end] => fail
          | _ => destruct b eqn:?
          end
      | |- context [match ?o with Some _ => _ | None => _ end] =>
          lazymatch o with
          | context [if _ then _ else _] => fail
          | context [match _ with Some _ => _ | None => _ end] => fail
          | _ => destruct o eqn:?
          end
      end ].

Lemma forwarded_app (l1 l2 : list Call) :
  forwarded (l1 ++ l2) = forwarded l1 ++ forwarded l2.
Proof.
  induction l1 as [|c l1 IH]; cbn [app forwarded]; [reflexivity|].
  destruct c as [| |port q b| | | | |]; try exact IH.
  destruct port; try exact IH. destruct b; [|exact IH].
  rewrite IH. reflexivity.
Qed.

Lemma delivered_app (l1 l2 : list Call) :
  delivered (l1 ++ l2) = delivered l1 ++ delivered l2.
Proof.
  induction l1 as [|c l1 IH]; cbn [app delivered]; [reflexivity|].
  destruct c as [| | |q b| | | |]; try exact IH.
  destruct b; [|exact IH]. rewrite IH. reflexivity.
Qed.

Lemma traces_recvTimingReq (env : Env) (p : Packet) (s s' : CXLMemory) (b : bool) :
  recvTimingReq env p s = Ok (b, s') ->
  req_trace s' = req_trace s ++ (if b then [clearDelays p] else []) /\
  rsp_trace s' = rsp_trace s.
Proof.
  unfold recvTimingReq, panic_if, reqQueueFull, respQueueFull, schedTimingReq, assert,
    req_trace, rsp_trace.
  split_conds; intros H; inversion H; subst; clear H; split_conds;
    try congruence;
    rewrite ?forwarded_app, ?delivered_app, ?map_app, ?app_nil_r, ?app_assoc; cbn;
    rewrite ?app_nil_r; auto.
Qed.

Lemma traces_req_trySendTiming (env : Env) (a : bool) (s s' : CXLMemory) :
  CXLRequestPort_trySendTiming env a s = Ok s' ->
  req_trace s' = req_trace s /\ rsp_trace s' = rsp_trace s.
Proof.
  unfold CXLRequestPort_trySendTiming, retryStalledReq, assert, req_trace, rsp_trace.
  destruct (req_transmitList (memReqPort s)) as [|req rest] eqn:Hl; [discriminate|].
  destruct rest as [|next rest'].
  all: split_conds; intros H; inversion H; subst; clear H; cbn;
    rewrite ?Hl; cbn;
    rewrite ?forwarded_app, ?delivered_app; cbn;
    rewrite ?forwarded_app, ?delivered_app; cbn;
    rewrite ?app_nil_r, <- ?app_assoc; cbn; auto.
Qed.

Lemma traces_recvTimingResp (env : Env) (p : Packet) (s : CXLMemory) :
  req_trace (snd (CXLRequestPort_recvTimingResp env p s)) = req_trace s /\
  rsp_trace (snd (CXLRequestPort_recvTimingResp env p s)) = rsp_trace s ++ [clearDelays p].
Proof.
  unfold CXLRequestPort_recvTimingResp, schedTimingResp, req_trace, rsp_trace.
  split_conds; rewrite ?forwarded_app, ?delivered_app, ?map_app, ?app_nil_r, ?app_assoc;
    cbn; rewrite ?app_nil_r; auto.
Qed.

Lemma traces_rsp_trySendTiming (env : Env) (a : bool) (s s' : CXLMemory) :
  CXLResponsePort_trySendTiming env a s = Ok s' ->
  req_trace s' = req_trace s /\ rsp_trace s' = rsp_trace s.
Proof.
  unfold CXLResponsePort_trySendTiming, reqQueueFull, assert, req_trace, rsp_trace.
  destruct (rsp_transmitList (cxlRspPort s)) as [|resp rest] eqn:Hl; [discriminate|].
  destruct rest as [|next rest'].
  all: split_conds; intros H; inversion H; subst; clear H; cbn;
    rewrite ?Hl; cbn;
    rewrite ?forwarded_app, ?delivered_app; cbn;
    rewrite ?forwarded_app, ?delivered_app; cbn;
    rewrite ?app_nil_r, <- ?app_assoc; cbn; auto.
Qed.

Lemma traces_bypass (w : World) (e : Event) (w' : World) :
  is_bypass_event e = true ->
  step w e = Some (Ok w') ->
  req_trace (dev w') = req_trace (dev w) /\ rsp_trace (dev w') = rsp_trace (dev w).
Proof.
  intros Hb Hst. destruct e; try discriminate Hb; cbn [step on_dev bind] in Hst;
    injection Hst as <-; cbn [dev]; unfold req_trace, rsp_trace.
  - split; reflexivity.
  - unfold initNMPCPU.
    split_opts; rewrite ?forwarded_app, ?delivered_app, ?app_nil_r; cbn;
      rewrite ?forwarded_app, ?delivered_app, ?app_nil_r; cbn;
      rewrite ?app_nil_r; auto.
  - unfold startNMPExecution, set_pcState, activate.
    split_opts; rewrite ?forwarded_app, ?delivered_app, ?app_nil_r; cbn;
      rewrite ?forwarded_app, ?delivered_app, ?app_nil_r; cbn;
      rewrite ?forwarded_app, ?delivered_app, ?app_nil_r; cbn;
      rewrite ?forwarded_app, ?delivered_app, ?app_nil_r; cbn;
      rewrite ?app_nil_r; auto.
  - unfold handleNMPMemoryAccess.
    split_opts; rewrite ?forwarded_app, ?delivered_app, ?app_nil_r; cbn;
      rewrite ?app_nil_r; auto.
  - unfold NMPMemPort_recvTimingResp.
    split_opts; rewrite ?forwarded_app, ?delivered_app, ?app_nil_r; cbn;
      rewrite ?app_nil_r; auto.
Qed.

Lemma traces_step (w : World) (e : Event) (w' : World) :
  step w e = Some (Ok w') ->
  req_trace (dev w') = req_trace (dev w) ++ admitted_by w e /\
  rsp_trace (dev w') = rsp_trace (dev w) ++ completed_by e.
Proof.
  intros Hst.
  destruct (is_bypass_event e) eqn:Hb.
  { destruct (traces_bypass w e w' Hb Hst) as [E1 E2].
    destruct e; try discriminate Hb; cbn [admitted_by completed_by];
      rewrite ?app_nil_r; auto. }
  destruct e; try discriminate Hb; unfold step in Hst; unfold admitted_by, completed_by.
  - destruct (recvTimingReq env p (dev w)) as [[b d]|f] eqn:Hr;
      unfold on_dev, bind in Hst; [|discriminate].
    injection Hst as Hw.
    assert (Hd : dev w' = d) by (rewrite <- Hw; reflexivity). rewrite Hd.
    destruct (traces_recvTimingReq env p (dev w) d b Hr) as [E1 E2].
    rewrite E1, E2, app_nil_r. destruct b; auto.
  - destruct (CXLRequestPort_trySendTiming env accepted (dev w)) as [d|f] eqn:Hr;
      unfold bind in Hst; [|discriminate].
    injection Hst as Hw.
    assert (Hd : dev w' = d) by (rewrite <- Hw; reflexivity). rewrite Hd.
    destruct (traces_req_trySendTiming env accepted (dev w) d Hr) as [E1 E2].
    rewrite E1, E2, !app_nil_r. auto.
  - destruct (0 <? backendOwes w); [|discriminate].
    injection Hst as Hw.
    assert (Hd : dev w' = snd (CXLRequestPort_recvTimingResp env p (dev w)))
      by (rewrite <- Hw; reflexivity).
    rewrite Hd.
    destruct (traces_recvTimingResp env p (dev w)) as [E1 E2].
    rewrite E1, E2, app_nil_r. auto.
  - destruct (CXLResponsePort_trySendTiming env accepted (dev w)) as [d|f] eqn:Hr;
      unfold on_dev, bind in Hst; [|discriminate].
    injection Hst as Hw.
    assert (Hd : dev w' = d) by (rewrite <- Hw; reflexivity). rewrite Hd.
    destruct (traces_rsp_trySendTiming env accepted (dev w) d Hr) as [E1 E2].
    rewrite E1, E2, !app_nil_r. auto.
Qed.

Lemma traces_run (evs : list Event) (w w' : World) :
  run evs w = Some (Ok w') ->
  req_trace (dev w') = req_trace (dev w) ++ admitted evs w /\
  rsp_trace (dev w') = rsp_trace (dev w) ++ flat_map completed_by evs.
Proof.
  revert w. induction evs as [|e evs IH]; intros w Hrun; cbn [run admitted flat_map] in *.
  - injection Hrun as <-. rewrite !app_nil_r. auto.
  - destruct (step w e) as [[w1|f]|] eqn:Hst; try discriminate.
    destruct (traces_step w e w1 Hst) as [E1 E2].
    destruct (IH w1 Hrun) as [F1 F2].
    rewrite F1, F2, E1, E2, <- !app_assoc. auto.
Qed.

(** X8: requests leave the device in the order in which they were taken.
    After any run from construction, the packets the backend has taken,
    followed by those still in the request queue, are exactly the packets of
    the host requests answered [true], in submission order, each with its
    delays cleared: none is lost, duplicated or overtaken. *)
Theorem requests_forwarded_in_order (env : Env) (p : Params) (evs : list Event) (w : World)
    (Hrun : run evs (initWorld env p) = Some (Ok w)) :
  forwarded (calls (dev w)) ++ map pkt (req_transmitList (memReqPort (dev w)))
  = admitted evs (initWorld env p).
Proof.
  destruct (traces_run evs (initWorld env p) w Hrun) as [E _].
  exact E.
Qed.

Lemma requests_forwarded_in_order_witness :
  exists w,
    run sampleRun (initWorld (edgeEnv 1000 0) (sampleParams 1 2 true)) = Some (Ok w) /\
    forwarded (calls (dev w)) ++ map pkt (req_transmitList (memReqPort (dev w)))
    = [clearDelays (samplePacket 64 true false 3 4 900)].
Proof.
  eexists. split; [vm_compute; reflexivity|].
  etransitivity.
  - apply (requests_forwarded_in_order (edgeEnv 1000 0) (sampleParams 1 2 true) sampleRun).
    vm_compute. reflexivity.
  - vm_compute. reflexivity.
Defined.

(** X9: responses leave the device in the order in which the completions
    arrived.  After any run from construction, the packets the host has
    taken, followed by those still in the response queue, are exactly the
    completions received from the backend, in arrival order, each with its
    delays cleared. *)
Theorem responses_delivered_in_order (env : Env) (p : Params) (evs : list Event) (w : World)
    (Hrun : run evs (initWorld env p) = Some (Ok w)) :
  delivered (calls (dev w)) ++ map pkt (rsp_transmitList (cxlRspPort (dev w)))
  = flat_map completed_by evs.
Proof.
  destruct (traces_run evs (initWorld env p) w Hrun) as [_ E].
  exact E.
Qed.

Lemma responses_delivered_in_order_witness :
  exists w,
    run sampleRun (initWorld (edgeEnv 1000 0) (sampleParams 1 2 true)) = Some (Ok w) /\
    delivered (calls (dev w)) ++ map pkt (rsp_transmitList (cxlRspPort (dev w)))
    = [clearDelays (samplePacket 64 true false 5 0 900)].
Proof.
  eexists. split; [vm_compute; reflexivity|].
  etransitivity.
  - apply (responses_delivered_in_order (edgeEnv 1000 0) (sampleParams 1 2 true) sampleRun).
    vm_compute. reflexivity.
  - vm_compute. reflexivity.
Defined.

(** ** The statistics against the call log *)

Lemma count_calls_app (f : Call -> bool) (l1 l2 : list Call) :
  count_calls f (l1 ++ l2) = count_calls f l1 + count_calls f l2.
Proof. unfold count_calls. rewrite filter_app, length_app. lia. Qed.

Ltac close_acc :=
  constructor; cbn;
  rewrite ?count_calls_app, ?length_app; cbn;
  rewrite ?count_calls_app, ?length_app; cbn;
  repeat match goal with
         | H : ?b = _ |- context [if ?b then _ else _] => rewrite H
         end;
  try lia.

Lemma Accounting_recvTimingReq (env : Env) (p : Packet) (s s' : CXLMemory) (b : bool) :
  Accounting s -> recvTimingReq env p s = Ok (b, s') -> Accounting s'.
Proof.
  intros [A1 A2 A3 A4 A5 A6 A7 A8].
  unfold recvTimingReq, panic_if, reqQueueFull, respQueueFull, schedTimingReq, assert.
  split_conds; intros H; inversion H; subst; clear H; try congruence.
  all: try rewrite Heqb0 in A8.
  all: close_acc.
Qed.

Lemma Accounting_req_trySendTiming (env : Env) (a : bool) (s s' : CXLMemory) :
  Accounting s -> CXLRequestPort_trySendTiming env a s = Ok s' -> Accounting s'.
Proof.
  intros [A1 A2 A3 A4 A5 A6 A7 A8].
  unfold CXLRequestPort_trySendTiming, retryStalledReq, assert.
  destruct (req_transmitList (memReqPort s)) as [|req rest] eqn:Hl; [discriminate|].
  destruct rest as [|next rest']; destruct (retryReq (cxlRspPort s)) eqn:Hretry.
  all: split_conds; intros H; inversion H; subst; clear H; try congruence.
  all: close_acc.
Qed.

Lemma Accounting_recvTimingResp (env : Env) (p : Packet) (s : CXLMemory) :
  Accounting s -> Accounting (snd (CXLRequestPort_recvTimingResp env p s)).
Proof.
  intros [A1 A2 A3 A4 A5 A6 A7 A8].
  unfold CXLRequestPort_recvTimingResp, schedTimingResp.
  destruct (retryReq (cxlRspPort s)) eqn:Hretry.
  all: split_conds; close_acc.
Qed.

Lemma Accounting_rsp_trySendTiming (env : Env) (a : bool) (s s' : CXLMemory) :
  Accounting s -> CXLResponsePort_trySendTiming env a s = Ok s' -> Accounting s'.
Proof.
  intros [A1 A2 A3 A4 A5 A6 A7 A8].
  unfold CXLResponsePort_trySendTiming, reqQueueFull, assert.
  destruct (rsp_transmitList (cxlRspPort s)) as [|resp rest] eqn:Hl; [discriminate|].
  destruct rest as [|next rest']; destruct (retryReq (cxlRspPort s)) eqn:Hretry.
  all: split_conds; intros H; inversion H; subst; clear H; try congruence.
  all: close_acc.
Qed.

Lemma Accounting_bypass (w : World) (e : Event) (w' : World) :
  is_bypass_event e = true ->
  step w e = Some (Ok w') ->
  Accounting (dev w) -> Accounting (dev w').
Proof.
  intros Hb Hst [A1 A2 A3 A4 A5 A6 A7 A8].
  destruct (retryReq (cxlRspPort (dev w))) eqn:Hretry.
  all: destruct e; try discriminate Hb; cbn [step on_dev bind] in Hst;
    injection Hst as <-; cbn [dev].
  all: unfold setNMPCPU, initNMPCPU, startNMPExecution, set_pcState, activate,
         handleNMPMemoryAccess, NMPMemPort_recvTimingResp.
  all: split_opts; close_acc.
Qed.

Lemma Accounting_step (w : World) (e : Event) (w' : World) :
  step w e = Some (Ok w') -> Accounting (dev w) -> Accounting (dev w').
Proof.
  intros Hst HA.
  destruct (is_bypass_event e) eqn:Hb.
  { exact (Accounting_bypass w e w' Hb Hst HA). }
  destruct e; try discriminate Hb; unfold step in Hst.
  - destruct (recvTimingReq env p (dev w)) as [[b d]|f] eqn:Hr;
      unfold on_dev, bind in Hst; [|discriminate].
    injection Hst as Hw.
    assert (Hd : dev w' = d) by (rewrite <- Hw; reflexivity). rewrite Hd.
    exact (Accounting_recvTimingReq env p (dev w) d b HA Hr).
  - destruct (CXLRequestPort_trySendTiming env accepted (dev w)) as [d|f] eqn:Hr;
      unfold bind in Hst; [|discriminate].
    injection Hst as Hw.
    assert (Hd : dev w' = d) by (rewrite <- Hw; reflexivity). rewrite Hd.
    exact (Accounting_req_trySendTiming env accepted (dev w) d HA Hr).
  - destruct (0 <? backendOwes w); [|discriminate].
    injection Hst as Hw.
    assert (Hd : dev w' = snd (CXLRequestPort_recvTimingResp env p (dev w)))
      by (rewrite <- Hw; reflexivity).
    rewrite Hd. now apply Accounting_recvTimingResp.
  - destruct (CXLResponsePort_trySendTiming env accepted (dev w)) as [d|f] eqn:Hr;
      unfold on_dev, bind in Hst; [|discriminate].
    injection Hst as Hw.
    assert (Hd : dev w' = d) by (rewrite <- Hw; reflexivity). rewrite Hd.
    exact (Accounting_rsp_trySendTiming env accepted (dev w) d HA Hr).
Qed.

Lemma Accounting_run (evs : list Event) (w w' : World) :
  run evs w = Some (Ok w') -> Accounting (dev w) -> Accounting (dev w').
Proof.
  revert w. induction evs as [|e evs IH]; intros w Hrun HA; cbn [run] in Hrun.
  - injection Hrun as <-. exact HA.
  - destruct (step w e) as [[w1|f]|] eqn:Hst; try discriminate.
    exact (IH w1 Hrun (Accounting_step w e w1 Hst HA)).
Qed.

Lemma Accounting_init (env : Env) (p : Params) : Accounting (mkCXLMemory env p).
Proof. constructor; cbn; reflexivity || lia. Qed.

(** X10: the send and retry statistics say what the device did.  After any
    run from construction, the four send counters equal the numbers of
    successful and refused sends made on the two protocol ports, the retry
    counter equals the number of retry signals sent to the host, and each
    queue-wait distribution holds one sample per successful send. *)
Theorem statistics_match_calls (env : Env) (p : Params) (evs : list Event) (w : World)
    (Hrun : run evs (initWorld env p) = Some (Ok w)) :
  let s := dev w in
  reqSendSucceed (stats s) = count_calls (is_req_send true) (calls s) /\
  reqSendFaild (stats s) = count_calls (is_req_send false) (calls s) /\
  rspSendSucceed (stats s) = count_calls (is_rsp_send true) (calls s) /\
  rspSendFaild (stats s) = count_calls (is_rsp_send false) (calls s) /\
  reqRetryCounts (stats s) = count_calls is_retry (calls s) /\
  Z.of_nat (List.length (reqQueueLatDist (stats s))) = reqSendSucceed (stats s) /\
  Z.of_nat (List.length (rspQueueLatDist (stats s))) = rspSendSucceed (stats s).
Proof.
  destruct (Accounting_run evs (initWorld env p) w Hrun (Accounting_init env p))
    as [A1 A2 A3 A4 A5 A6 A7 _].
  cbn zeta. auto 10.
Qed.

Lemma statistics_match_calls_witness :
  exists w,
    run sampleRun (initWorld (edgeEnv 1000 0) (sampleParams 1 2 true)) = Some (Ok w) /\
    reqSendSucceed (stats (dev w)) = count_calls (is_req_send true) (calls (dev w)) /\
    reqRetryCounts (stats (dev w)) = count_calls is_retry (calls (dev w)).
Proof.
  eexists. split; [vm_compute; reflexivity|].
  match goal with
  | |- reqSendSucceed (stats (dev ?w)) = _ /\ _ =>
      destruct (statistics_match_calls (edgeEnv 1000 0) (sampleParams 1 2 true)
                  sampleRun w) as (H1 & _ & _ & _ & H5 & _)
  end.
  - vm_compute. reflexivity.
  - split; [exact H1 | exact H5].
Defined.

(** X11: every retry answers a recorded stall.  After any run from
    construction, the number of retries sent, plus one while the requester is
    stalled, does not exceed the number of queue-full events recorded on the
    request and response sides together. *)
Theorem retries_bounded_by_queue_full_events (env : Env) (p : Params)
    (evs : list Event) (w : World)
    (Hrun : run evs (initWorld env p) = Some (Ok w)) :
  reqRetryCounts (stats (dev w))
  + (if retryReq (cxlRspPort (dev w)) then 1 else 0)
  <= reqQueFullEvents (stats (dev w)) + rspQueFullEvents (stats (dev w)).
Proof.
  destruct (Accounting_run evs (initWorld env p) w Hrun (Accounting_init env p))
    as [_ _ _ _ _ _ _ A8].
  exact A8.
Qed.

Lemma retries_bounded_by_queue_full_events_witness :
  exists w,
    run sampleRun (initWorld (edgeEnv 1000 0) (sampleParams 1 2 true)) = Some (Ok w) /\
    reqRetryCounts (stats (dev w))
    + (if retryReq (cxlRspPort (dev w)) then 1 else 0)
    <= reqQueFullEvents (stats (dev w)) + rspQueFullEvents (stats (dev w)).
Proof.
  eexists. split; [vm_compute; reflexivity|].
  apply (retries_bounded_by_queue_full_events (edgeEnv 1000 0) (sampleParams 1 2 true)
           sampleRun).
  vm_compute. reflexivity.
Defined.

(** ** Reserved response slots *)

(** X12: along every run from construction each reserved response slot
    belongs to exactly one request in flight: [outstandingResponses] is the
    number of queued requests that need a response, plus the completions the
    backend owes, plus the queued responses.  Hence the response queue,
    though never checked when a completion is appended, holds at most
    [rsp_size] entries. *)
Theorem reserved_slots_accounted (env : Env) (p : Params) (evs : list Event) (w : World)
    (Hreq : 0 <= req_size p) (Hrsp : 0 <= rsp_size p < 2 ^ 32)
    (Hrun : run evs (initWorld env p) = Some (Ok w)) :
  outstandingResponses (cxlRspPort (dev w)) =
    count_needsResponse (req_transmitList (memReqPort (dev w)))
    + backendOwes w
    + size (rsp_transmitList (cxlRspPort (dev w))) /\
  0 <= backendOwes w /\
  size (rsp_transmitList (cxlRspPort (dev w))) <= rsp_size p.
Proof.
  pose proof (Inv_run p evs (initWorld env p) (Ok w)
                (Inv_initWorld env p Hreq Hrsp) Hrun) as H.
  cbn [step_ok] in H. destruct H as [_ E2 [_ [_ Ho]] _ Hb Hs].
  pose proof (count_needsResponse_nonneg (req_transmitList (memReqPort (dev w)))).
  repeat split; try assumption. lia.
Qed.

Lemma reserved_slots_accounted_witness :
  exists w,
    run (firstn 4 sampleRun) (initWorld (edgeEnv 1000 0) (sampleParams 1 2 true))
      = Some (Ok w) /\
    outstandingResponses (cxlRspPort (dev w)) = 1 /\
    size (rsp_transmitList (cxlRspPort (dev w))) <= 2.
Proof.
  eexists. split; [vm_compute; reflexivity|].
  match goal with
  | |- outstandingResponses (cxlRspPort (dev ?w)) = _ /\ _ =>
      destruct (reserved_slots_accounted (edgeEnv 1000 0) (sampleParams 1 2 true)
                  (firstn 4 sampleRun) w) as (H1 & _ & H3)
  end.
  - vm_compute. discriminate.
  - vm_compute. split; [discriminate | reflexivity].
  - vm_compute. reflexivity.
  - split; [rewrite H1; vm_compute; reflexivity | exact H3].
Defined.

(** ** What never changes *)

Lemma configuration_step (w : World) (e : Event) (w' : World) :
  step w e = Some (Ok w') -> configuration (dev w') = configuration (dev w).
Proof.
  intros Hst. unfold configuration.
  destruct e; unfold step in Hst.
  - revert Hst. unfold recvTimingReq, panic_if, reqQueueFull, respQueueFull,
      schedTimingReq, assert, on_dev.
    split_conds; intros H; inversion H; subst; clear H; reflexivity.
  - revert Hst. unfold CXLRequestPort_trySendTiming, retryStalledReq, assert.
    destruct (req_transmitList (memReqPort (dev w))) as [|req rest] eqn:Hl;
      [discriminate|].
    destruct rest as [|next rest'].
    all: split_conds; intros H; inversion H; subst; clear H; cbn; rewrite ?Hl; reflexivity.
  - destruct (0 <? backendOwes w); [|discriminate].
    injection Hst as <-. cbn [dev].
    unfold CXLRequestPort_recvTimingResp, schedTimingResp.
    split_conds; reflexivity.
  - revert Hst. unfold CXLResponsePort_trySendTiming, reqQueueFull, assert, on_dev.
    destruct (rsp_transmitList (cxlRspPort (dev w))) as [|resp rest] eqn:Hl;
      [discriminate|].
    destruct rest as [|next rest'].
    all: split_conds; intros H; inversion H; subst; clear H; cbn; rewrite ?Hl; reflexivity.
  - injection Hst as <-. reflexivity.
  - injection Hst as <-. cbn [dev]. unfold initNMPCPU. split_opts; reflexivity.
  - injection Hst as <-. cbn [dev].
    unfold startNMPExecution, set_pcState, activate. split_opts; reflexivity.
  - injection Hst as <-. cbn [dev]. unfold handleNMPMemoryAccess. split_opts; reflexivity.
  - injection Hst as <-. cbn [dev]. unfold NMPMemPort_recvTimingResp.
    split_opts; reflexivity.
Qed.

(** X13: nothing the constructor fixes is ever changed: along any run the
    two queue limits, the protocol latency of both ports, the bypass enable
    flag, the bypass start address and the workload path keep their
    values. *)
Theorem configuration_immutable (evs : list Event) (w w' : World)
    (Hrun : run evs w = Some (Ok w')) :
  configuration (dev w') = configuration (dev w).
Proof.
  revert w Hrun. induction evs as [|e evs IH]; intros w Hrun; cbn [run] in Hrun.
  - injection Hrun as <-. reflexivity.
  - destruct (step w e) as [[w1|f]|] eqn:Hst; try discriminate.
    rewrite (IH w1 Hrun). exact (configuration_step w e w1 Hst).
Qed.

Lemma configuration_immutable_witness :
  exists w,
    run sampleRun (initWorld (edgeEnv 1000 0) (sampleParams 1 2 true)) = Some (Ok w) /\
    configuration (dev w) = (1, 2, 2, 2, true, 4096, "pointer_chase_nmp"%string).
Proof.
  eexists. split; [vm_compute; reflexivity|].
  etransitivity.
  - apply (configuration_immutable sampleRun
             (initWorld (edgeEnv 1000 0) (sampleParams 1 2 true))).
    vm_compute. reflexivity.
  - vm_compute. reflexivity.
Defined.

(** ** The two paths do not interfere *)

Lemma protocol_step_equiv (w1 w2 : World) (e : Event) :
  is_bypass_event e = false ->
  protocol_equiv w1 w2 ->
  same_protocol_outcome (step w1 e) (step w2 e).
Proof.
  intros Hb [Hp Ho].
  destruct w1 as [d1 o1], w2 as [d2 o2]. cbn [dev backendOwes] in *. subst o2.
  destruct d1, d2. unfold protocol_state in Hp. cbn in Hp.
  injection Hp as -> -> -> ->.
  destruct e; try discriminate Hb; unfold step, same_protocol_outcome, protocol_equiv,
    protocol_state.
  - unfold recvTimingReq, panic_if, reqQueueFull, respQueueFull, schedTimingReq, assert,
      on_dev.
    split_conds; auto; congruence.
  - unfold CXLRequestPort_trySendTiming, retryStalledReq, assert.
    cbn [memReqPort dev].
    destruct (req_transmitList memReqPort1) as [|req rest] eqn:Hl; cbn; auto.
    destruct rest as [|next rest'].
    all: split_conds; auto; congruence.
  - cbn [backendOwes]. destruct (0 <? o1); auto.
    unfold CXLRequestPort_recvTimingResp, schedTimingResp.
    split_conds; auto; congruence.
  - unfold CXLResponsePort_trySendTiming, reqQueueFull, assert, on_dev.
    cbn [cxlRspPort dev].
    destruct (rsp_transmitList cxlRspPort1) as [|resp rest] eqn:Hl; cbn; auto.
    destruct rest as [|next rest'].
    all: split_conds; auto; congruence.
Qed.

Lemma bypass_step_frame (w : World) (e : Event) :
  is_bypass_event e = true ->
  exists w', step w e = Some (Ok w') /\ protocol_equiv w' w.
Proof.
  intros Hb. destruct e; try discriminate Hb; cbn [step on_dev bind];
    eexists; (split; [reflexivity|]); unfold protocol_equiv, protocol_state; cbn [dev backendOwes].
  - split; reflexivity.
  - unfold initNMPCPU. split_opts; auto.
  - unfold startNMPExecution, set_pcState, activate. split_opts; auto.
  - unfold handleNMPMemoryAccess. split_opts; auto.
  - unfold NMPMemPort_recvTimingResp. split_opts; auto.
Qed.

Lemma protocol_run_equiv (evs : list Event) (w1 w2 : World) :
  protocol_equiv w1 w2 ->
  same_protocol_outcome (run evs w1) (run (protocol_events evs) w2).
Proof.
  revert w1 w2. induction evs as [|e evs IH]; intros w1 w2 Heq.
  - exact Heq.
  - unfold protocol_events. cbn [filter]. fold (protocol_events evs).
    destruct (is_bypass_event e) eqn:Hb; cbn [negb].
    + destruct (bypass_step_frame w1 e Hb) as (w1' & Hst & [E1 E2]).
      cbn [run]. rewrite Hst. apply IH.
      destruct Heq as [F1 F2]. split; congruence.
    + pose proof (protocol_step_equiv w1 w2 e Hb Heq) as Hs.
      cbn [run].
      destruct (step w1 e) as [[w1'|f1]|], (step w2 e) as [[w2'|f2]|];
        cbn [same_protocol_outcome] in Hs; try contradiction.
      * now apply IH.
      * exact Hs.
      * exact I.
Qed.

(** X14: bypass traffic is invisible to the protocol path.  Whatever bypass
    calls are interleaved with a run, the run ends as the same run without
    them does: both stop at the same failure, or both reach states with the
    same ports, queues, retry flag, reserved slots, [preRspTick] and protocol
    statistics. *)
Theorem protocol_path_ignores_bypass (evs : list Event) (w : World) :
  same_protocol_outcome (run evs w) (run (protocol_events evs) w).
Proof. apply protocol_run_equiv. split; reflexivity. Qed.

Lemma bypass_step_equiv (w1 w2 : World) (e : Event) :
  is_bypass_event e = true ->
  bypass_equiv w1 w2 ->
  exists w1' w2',
    step w1 e = Some (Ok w1') /\ step w2 e = Some (Ok w2') /\ bypass_equiv w1' w2'.
Proof.
  intros Hb [He Hp].
  destruct w1 as [d1 o1], w2 as [d2 o2]. cbn [dev] in *.
  destruct d1, d2. unfold bypass_state in Hp. cbn in He, Hp.
  injection Hp as -> -> ->. subst.
  destruct e; try discriminate Hb; cbn [step on_dev bind];
    eexists _, _; (split; [reflexivity|]); (split; [reflexivity|]);
    unfold bypass_equiv, bypass_state; cbn [dev].
  - split; reflexivity.
  - unfold initNMPCPU. split_opts; auto.
  - unfold startNMPExecution, set_pcState, activate. split_opts; auto.
  - unfold handleNMPMemoryAccess. split_opts; auto.
  - unfold NMPMemPort_recvTimingResp. split_opts; auto.
Qed.

Lemma protocol_step_frame (w : World) (e : Event) (w' : World) :
  is_bypass_event e = false ->
  step w e = Some (Ok w') -> bypass_equiv w' w.
Proof.
  intros Hb Hst. unfold bypass_equiv, bypass_state.
  destruct e; try discriminate Hb; unfold step in Hst.
  - revert Hst. unfold recvTimingReq, panic_if, reqQueueFull, respQueueFull,
      schedTimingReq, assert, on_dev.
    split_conds; intros H; inversion H; subst; clear H; auto.
  - revert Hst. unfold CXLRequestPort_trySendTiming, retryStalledReq, assert.
    destruct (req_transmitList (memReqPort (dev w))) as [|req rest] eqn:Hl;
      [discriminate|].
    destruct rest as [|next rest'].
    all: split_conds; intros H; inversion H; subst; clear H; auto.
  - destruct (0 <? backendOwes w); [|discriminate].
    injection Hst as <-. cbn [dev].
    unfold CXLRequestPort_recvTimingResp, schedTimingResp.
    split_conds; auto.
  - revert Hst. unfold CXLResponsePort_trySendTiming, reqQueueFull, assert, on_dev.
    destruct (rsp_transmitList (cxlRspPort (dev w))) as [|resp rest] eqn:Hl;
      [discriminate|].
    destruct rest as [|next rest'].
    all: split_conds; intros H; inversion H; subst; clear H; auto.
Qed.

Lemma bypass_run_equiv (evs : list Event) (w1 w2 w1' : World) :
  bypass_equiv w1 w2 ->
  run evs w1 = Some (Ok w1') ->
  exists w2', run (bypass_events evs) w2 = Some (Ok w2') /\ bypass_equiv w1' w2'.
Proof.
  revert w1 w2. induction evs as [|e evs IH]; intros w1 w2 Heq Hrun.
  - cbn in Hrun. injection Hrun as <-. exists w2. split; [reflexivity | exact Heq].
  - unfold bypass_events. cbn [filter]. fold (bypass_events evs).
    cbn [run] in Hrun.
    destruct (step w1 e) as [[w1n|f]|] eqn:Hst; try discriminate.
    destruct (is_bypass_event e) eqn:Hb.
    + destruct (bypass_step_equiv w1 w2 e Hb Heq) as (a & b & Ha & Hb2 & Hab).
      rewrite Hst in Ha. injection Ha as <-.
      cbn [run]. rewrite Hb2. now apply (IH w1n b).
    + apply (IH w1n w2); [|exact Hrun].
      destruct (protocol_step_frame w1 e w1n Hb Hst) as [E1 E2].
      destruct Heq as [F1 F2]. split; congruence.
Qed.

(** X15: protocol traffic is invisible to the bypass.  When a run completes,
    the bypass calls in it, made alone and in the same order, complete too and
    leave the same attached unit, thread context and bypass statistics. *)
Theorem bypass_ignores_protocol_path (evs : list Event) (w w' : World)
    (Hrun : run evs w = Some (Ok w')) :
  exists w'',
    run (bypass_events evs) w = Some (Ok w'') /\
    bypass_state (dev w'') = bypass_state (dev w').
Proof.
  destruct (bypass_run_equiv evs w w w' (conj eq_refl eq_refl) Hrun)
    as (w'' & Hr & [_ E]).
  exists w''. split; [exact Hr | symmetry; exact E].
Qed.

Lemma bypass_ignores_protocol_path_witness :
  exists w' w'',
    run sampleMixedRun (initWorld (edgeEnv 1000 0) (sampleParams 1 2 true)) = Some (Ok w') /\
    run (bypass_events sampleMixedRun) (initWorld (edgeEnv 1000 0) (sampleParams 1 2 true))
      = Some (Ok w'') /\
    bypass_state (dev w'') = bypass_state (dev w').
Proof.
  assert (H : exists w',
             run sampleMixedRun (initWorld (edgeEnv 1000 0) (sampleParams 1 2 true))
             = Some (Ok w')) by (eexists; vm_compute; reflexivity).
  destruct H as [w' Hrun].
  destruct (bypass_ignores_protocol_path sampleMixedRun _ w' Hrun) as (w'' & H1 & H2).
  exists w', w''. auto.
Defined.

(** ** Stalling and releasing the requester *)




(** X17: what a successful forward buys the requester.  After
    [CXLRequestPort::trySendTiming] has handed the head of a request queue
    that was within its limit to the backend, the retry flag is clear and the
    queue is below its limit, so the next request is refused only for want of
    a response slot: it is answered [false] exactly when it needs a response
    and [outstandingResponses] equals the response limit. *)
Theorem forward_then_request (env env2 : Env) (q : Packet) (s s1 : CXLMemory)
    (Hlimit : size (req_transmitList (memReqPort s)) <= reqQueueLimit (memReqPort s))
    (Hsent : CXLRequestPort_trySendTiming env true s = Ok s1)
    (Hq : cacheResponding q = false) :
  retryReq (cxlRspPort s1) = false /\
  size (req_transmitList (memReqPort s1)) < reqQueueLimit (memReqPort s1) /\
  exists s2,
    recvTimingReq env2 q s1 =
      Ok (negb (needsResponse q
                && (outstandingResponses (cxlRspPort s) =? respQueueLimit (cxlRspPort s))),
          s2).
Proof.
  revert Hsent. unfold CXLRequestPort_trySendTiming, assert.
  destruct (req_transmitList (memReqPort s)) as [|req rest] eqn:Hl; [discriminate|].
  rewrite size_cons in Hlimit.
  destruct (tick req <=? curTick env); cbn [bind]; [|discriminate].
  intros H. injection H as <-.
  match goal with
  | |- context [retryStalledReq ?x] =>
      destruct (retryStalledReq_queues x) as (E1 & E2 & E3 & E4 & E5);
      assert (E6 : retryReq (cxlRspPort (retryStalledReq x)) = false)
        by (unfold retryStalledReq; destruct (retryReq (cxlRspPort x)) eqn:Hr;
            [reflexivity | exact Hr]);
      set (s1 := retryStalledReq x) in *
  end.
  assert (F1 : req_transmitList (memReqPort s1) = rest)
    by (rewrite E1; destruct rest; reflexivity).
  assert (F3 : outstandingResponses (cxlRspPort s1) = outstandingResponses (cxlRspPort s))
    by (rewrite E3; destruct rest; reflexivity).
  assert (F4 : reqQueueLimit (memReqPort s1) = reqQueueLimit (memReqPort s))
    by (rewrite E4; destruct rest; reflexivity).
  assert (F5 : respQueueLimit (cxlRspPort s1) = respQueueLimit (cxlRspPort s))
    by (rewrite E5; destruct rest; reflexivity).
  clearbody s1. clear E1 E2 E3 E4 E5.
  split; [exact E6|]. split; [rewrite F1, F4; lia|].
  assert (Hnf : (size (req_transmitList (memReqPort s1)) =? reqQueueLimit (memReqPort s1)) = false)
    by (apply Z.eqb_neq; rewrite F1, F4; lia).
  rewrite <- F3, <- F5.
  unfold recvTimingReq, panic_if, reqQueueFull, respQueueFull, schedTimingReq, assert.
  rewrite Hq. cbn [bind]. rewrite E6, Hnf.
  destruct (needsResponse q); cbn [andb].
  - destruct (outstandingResponses (cxlRspPort s1) =? respQueueLimit (cxlRspPort s1)) eqn:Hrf.
    + cbn. eexists. reflexivity.
    + cbn. rewrite Hrf. cbn. rewrite E6. cbn.
      destruct (size (req_transmitList (memReqPort s1)) =? 0); cbn; rewrite Hnf; cbn;
        rewrite E6; eexists; reflexivity.
  - cbn. rewrite E6. cbn.
    destruct (size (req_transmitList (memReqPort s1)) =? 0); cbn; rewrite Hnf; cbn;
      rewrite E6; eexists; reflexivity.
Qed.

Lemma forward_then_request_witness :
  exists s1 s2,
    CXLRequestPort_trySendTiming (edgeEnv 1000 4000) true sampleQueued = Ok s1 /\
    recvTimingReq (edgeEnv 1000 5000) (samplePacket 128 true false 0 0 4900) s1
      = Ok (true, s2).
Proof.
  assert (Hs : exists s1,
             CXLRequestPort_trySendTiming (edgeEnv 1000 4000) true sampleQueued = Ok s1)
    by (eexists; vm_compute; reflexivity).
  destruct Hs as [s1 Hs].
  destruct (forward_then_request (edgeEnv 1000 4000) (edgeEnv 1000 5000)
              (samplePacket 128 true false 0 0 4900) sampleQueued s1)
    as (_ & _ & s2 & H2).
  - vm_compute. discriminate.
  - exact Hs.
  - reflexivity.
  - exists s1, s2. split; [exact Hs | exact H2].
Defined.

Lemma recvTimingReq_accepts (env : Env) (q : Packet) (s : CXLMemory) :
  cacheResponding q = false ->
  retryReq (cxlRspPort s) = false ->
  (size (req_transmitList (memReqPort s)) =? reqQueueLimit (memReqPort s)) = false ->
  needsResponse q
  && (outstandingResponses (cxlRspPort s) =? respQueueLimit (cxlRspPort s)) = false ->
  exists s2, recvTimingReq env q s = Ok (true, s2).
Proof.
  intros Hq Hretry Hroom Hslot.
  unfold recvTimingReq, panic_if, reqQueueFull, respQueueFull, schedTimingReq, assert.
  rewrite Hq. cbn [bind]. rewrite Hretry, Hroom.
  destruct (needsResponse q); cbn [andb] in Hslot.
  - rewrite Hslot. cbn. rewrite Hslot. cbn. rewrite Hretry. cbn.
    destruct (size (req_transmitList (memReqPort s)) =? 0); cbn; rewrite Hroom; cbn;
      rewrite Hretry; eexists; reflexivity.
  - cbn. rewrite Hretry. cbn.
    destruct (size (req_transmitList (memReqPort s)) =? 0); cbn; rewrite Hroom; cbn;
      rewrite Hretry; eexists; reflexivity.
Qed.

Lemma rsp_trySendTiming_sent (env : Env) (s s1 : CXLMemory) :
  CXLResponsePort_trySendTiming env true s = Ok s1 ->
  memReqPort s1 = memReqPort s /\
  respQueueLimit (cxlRspPort s1) = respQueueLimit (cxlRspPort s) /\
  outstandingResponses (cxlRspPort s1) = wrap32 (outstandingResponses (cxlRspPort s) - 1) /\
  outstandingResponses (cxlRspPort s) <> 0 /\
  retryReq (cxlRspPort s1) =
    retryReq (cxlRspPort s)
    && (size (req_transmitList (memReqPort s)) =? reqQueueLimit (memReqPort s)).
Proof.
  unfold CXLResponsePort_trySendTiming, reqQueueFull, assert.
  destruct (rsp_transmitList (cxlRspPort s)) as [|resp rest] eqn:Hl; [discriminate|].
  destruct (tick resp <=? curTick env); cbn [bind]; [|discriminate].
  cbn.
  destruct (outstandingResponses (cxlRspPort s) =? 0) eqn:Hz; cbn; [discriminate|].
  apply Z.eqb_neq in Hz.
  destruct rest as [|next rest']; cbn.
  all: destruct (size (req_transmitList (memReqPort s)) =? reqQueueLimit (memReqPort s));
    cbn.
  all: destruct (retryReq (cxlRspPort s)) eqn:Hretry; cbn.
  all: intros H; injection H as <-; cbn; rewrite ?Hretry; repeat split; auto.
  all: destruct (memReqPort s); reflexivity.
Qed.

(** X18: what a delivered response buys the requester.  After
    [CXLResponsePort::trySendTiming] has handed a response to the host while
    the request queue is below its limit and the reserved slots are within
    theirs, the retry flag is clear and every request is accepted, whether or
    not it needs a response. *)
Theorem response_then_request (env env2 : Env) (q : Packet) (s s1 : CXLMemory)
    (Hroom : size (req_transmitList (memReqPort s)) <> reqQueueLimit (memReqPort s))
    (Hslots : outstandingResponses (cxlRspPort s) <= respQueueLimit (cxlRspPort s))
    (Hrange : respQueueLimit (cxlRspPort s) < 2 ^ 32)
    (Hpos : 0 <= outstandingResponses (cxlRspPort s))
    (Hsent : CXLResponsePort_trySendTiming env true s = Ok s1)
    (Hq : cacheResponding q = false) :
  retryReq (cxlRspPort s1) = false /\
  exists s2, recvTimingReq env2 q s1 = Ok (true, s2).
Proof.
  apply Z.eqb_neq in Hroom.
  destruct (rsp_trySendTiming_sent env s s1 Hsent) as (E1 & E2 & E3 & Hz & E4).
  rewrite Hroom, andb_false_r in E4.
  rewrite wrap32_small in E3 by lia.
  split; [exact E4|].
  apply recvTimingReq_accepts; auto.
  - rewrite E1. exact Hroom.
  - rewrite E2, E3.
    replace (outstandingResponses (cxlRspPort s) - 1 =? respQueueLimit (cxlRspPort s))
      with false by (symmetry; apply Z.eqb_neq; lia).
    apply andb_false_r.
Qed.

Lemma response_then_request_witness :
  exists s1 s2,
    CXLResponsePort_trySendTiming (edgeEnv 1000 12000) true sampleAnswered = Ok s1 /\
    recvTimingReq (edgeEnv 1000 13000) (samplePacket 128 true false 0 0 12900) s1
      = Ok (true, s2).
Proof.
  assert (Hs : exists s1,
             CXLResponsePort_trySendTiming (edgeEnv 1000 12000) true sampleAnswered = Ok s1)
    by (eexists; vm_compute; reflexivity).
  destruct Hs as [s1 Hs].
  destruct (response_then_request (edgeEnv 1000 12000) (edgeEnv 1000 13000)
              (samplePacket 128 true false 0 0 12900) sampleAnswered s1)
    as (_ & s2 & H2).
  - vm_compute. discriminate.
  - vm_compute. discriminate.
  - vm_compute. reflexivity.
  - vm_compute. discriminate.
  - exact Hs.
  - reflexivity.
  - exists s1, s2. split; [exact Hs | exact H2].
Defined.

(** ** A request from submission to the backend *)

(** X19: a request taken into an empty request queue and handed to the
    backend at the first attempt.  The packet the backend receives is the
    submitted one with its delays cleared, the send event was armed for the
    scheduled tick, the queue is empty again, and the queue-wait latency
    recorded is the time from submission to the send. *)
Theorem request_round_trip (env1 env2 : Env) (p : Packet) (s : CXLMemory)
    (Hp : cacheResponding p = false)
    (Hretry : retryReq (cxlRspPort s) = false)
    (Hempty : req_transmitList (memReqPort s) = [])
    (Hlimit : reqQueueLimit (memReqPort s) <> 0)
    (Hslot : needsResponse p
             && (outstandingResponses (cxlRspPort s) =? respQueueLimit (cxlRspPort s))
             = false)
    (Hdue : tick_add (clockEdge env1 (rsp_protoProcLat (cxlRspPort s))) (receive_delay p)
            <= curTick env2) :
  exists s1 s2,
    recvTimingReq env1 p s = Ok (true, s1) /\
    CXLRequestPort_trySendTiming env2 true s1 = Ok s2 /\
    req_transmitList (memReqPort s2) = [] /\
    reqQueueLatDist (stats s2) =
      reqQueueLatDist (stats s) ++ [tick_sub (curTick env2) (curTick env1)] /\
    calls s2 =
      calls s ++
      [ Schedule ReqSendEvent
          (tick_add (clockEdge env1 (rsp_protoProcLat (cxlRspPort s))) (receive_delay p));
        SendTimingReq MemReqPortRef (clearDelays p) true ].
Proof.
  apply Z.leb_le in Hdue.
  assert (Hroom : (size (req_transmitList (memReqPort s)) =? reqQueueLimit (memReqPort s))
                  = false).
  { rewrite Hempty. apply Z.eqb_neq. unfold size. cbn. lia. }
  assert (Hz : (size (req_transmitList (memReqPort s)) =? 0) = true).
  { rewrite Hempty. reflexivity. }
  unfold recvTimingReq, panic_if, reqQueueFull, respQueueFull, schedTimingReq, assert.
  rewrite Hp. cbn [bind]. rewrite Hretry, Hroom.
  destruct (needsResponse p); cbn [andb] in Hslot.
  - rewrite Hslot. cbn. rewrite Hslot. cbn. rewrite Hretry. cbn.
    rewrite Hz. cbn. rewrite Hroom. cbn. rewrite Hretry. cbn.
    eexists _, _. split; [reflexivity|].
    unfold CXLRequestPort_trySendTiming, retryStalledReq, assert. cbn.
    rewrite Hempty. cbn. rewrite Hdue. cbn. rewrite Hretry. cbn.
    split; [reflexivity|]. cbn. rewrite <- !app_assoc. auto.
  - cbn. rewrite Hretry. cbn.
    rewrite Hz. cbn. rewrite Hroom. cbn. rewrite Hretry. cbn.
    eexists _, _. split; [reflexivity|].
    unfold CXLRequestPort_trySendTiming, retryStalledReq, assert. cbn.
    rewrite Hempty. cbn. rewrite Hdue. cbn. rewrite Hretry. cbn.
    split; [reflexivity|]. cbn. rewrite <- !app_assoc. auto.
Qed.

Lemma request_round_trip_witness :
  exists s1 s2,
    recvTimingReq (edgeEnv 1000 1000) (samplePacket 64 true false 3 4 900)
      (mkCXLMemory (edgeEnv 1000 0) (sampleParams 1 2 true)) = Ok (true, s1) /\
    CXLRequestPort_trySendTiming (edgeEnv 1000 4000) true s1 = Ok s2 /\
    reqQueueLatDist (stats s2) = [3000].
Proof.
  destruct (request_round_trip (edgeEnv 1000 1000) (edgeEnv 1000 4000)
              (samplePacket 64 true false 3 4 900)
              (mkCXLMemory (edgeEnv 1000 0) (sampleParams 1 2 true)))
    as (s1 & s2 & H1 & H2 & _ & H4 & _).
  - reflexivity.
  - reflexivity.
  - reflexivity.
  - vm_compute. discriminate.
  - reflexivity.
  - vm_compute. discriminate.
  - exists s1, s2. split; [exact H1|]. split; [exact H2|]. rewrite H4. reflexivity.
Defined.

(** ** Bringing up the bypass *)

(** X20: attaching a unit, initialising and starting.  With the bypass
    enabled, the bypass port connected and a unit that has a thread, the
    initialisation acquires the unit's first thread context and the start
    that follows counts one execution and leaves that context active at the
    entry point. *)
Theorem bypass_bring_up (env : Env) (cpu : BaseCPU) (tc : ThreadContext)
    (rest : list ThreadContext) (startPC stackPtr : Addr) (s : CXLMemory)
    (Hen : enableNMP s = true)
    (Hthreads : 0 < numThreads cpu)
    (Hctx : threadContexts cpu = tc :: rest) :
  let s1 := initNMPCPU true (setNMPCPU cpu s) in
  let s2 := startNMPExecution env startPC stackPtr s1 in
  nmpCPU s1 = Some cpu /\
  nmpTC s1 = Some tc /\
  nmpExecutions (nmpStats s2) = nmpExecutions (nmpStats s) + 1 /\
  nmpTC s2 = Some {| pcState := startPC; status := Active |} /\
  nmpActiveCycles (nmpStats s2) = cpuCurCycle env.
Proof.
  apply Z.ltb_lt in Hthreads.
  unfold initNMPCPU, setNMPCPU, startNMPExecution, set_pcState, activate.
  cbn. rewrite Hen. cbn. rewrite Hthreads, Hctx. cbn. rewrite Hen. cbn.
  destruct tc as [pc0 st]. destruct st; cbn; auto.
Qed.

Lemma bypass_bring_up_witness :
  let s1 := initNMPCPU true
              (setNMPCPU sampleCPU (mkCXLMemory (edgeEnv 1000 0) (sampleParams 1 2 true))) in
  nmpExecutions (nmpStats (startNMPExecution (edgeEnv 1000 2000) 4096 8192 s1)) = 1.
Proof.
  destruct (bypass_bring_up (edgeEnv 1000 2000) sampleCPU
              {| pcState := 0; status := Suspended |} [] 4096 8192
              (mkCXLMemory (edgeEnv 1000 0) (sampleParams 1 2 true)))
    as (_ & _ & H & _).
  - reflexivity.
  - reflexivity.
  - reflexivity.
  - exact H.
Defined.

(** X21: the unit is not started unless it was brought up.  On a device
    that holds no thread context, attaching a unit and initialising with the
    bypass disabled, with the bypass port not connected, or with a unit that
    has no thread, leaves the device without a context, and a start that
    follows counts no execution and activates nothing. *)
Theorem bypass_not_started (env : Env) (cpu : BaseCPU) (connected : bool)
    (startPC stackPtr : Addr) (s : CXLMemory)
    (Hfresh : nmpTC s = None)
    (Hbad : enableNMP s = false \/ connected = false \/ numThreads cpu <= 0) :
  let s1 := initNMPCPU connected (setNMPCPU cpu s) in
  let s2 := startNMPExecution env startPC stackPtr s1 in
  nmpTC s1 = None /\
  nmpTC s2 = None /\
  nmpStats s2 = nmpStats s /\
  activations (calls s2) = activations (calls s) /\
  (0 < numThreads cpu \/ enableNMP s = false \/ connected = false \/ nmpCPU s1 = None).
Proof.
  unfold initNMPCPU, setNMPCPU, startNMPExecution. cbn zeta.
  destruct (enableNMP s) eqn:Hen; destruct connected;
    destruct (0 <? numThreads cpu) eqn:Hn.
  all: try (exfalso; apply Z.ltb_lt in Hn;
            destruct Hbad as [H|[H|H]]; [discriminate | discriminate | lia]).
  all: cbn; rewrite ?Hen, ?Hn; cbn; rewrite ?Hen, ?Hn, ?Hfresh; cbn;
    rewrite ?Hen, ?Hfresh; cbn; rewrite ?activations_app; cbn.
  all: repeat split; auto; try lia.
  all: apply Z.ltb_lt in Hn; auto.
Qed.

Lemma bypass_not_started_witness :
  nmpExecutions
    (nmpStats
       (startNMPExecution (edgeEnv 1000 2000) 4096 8192
          (initNMPCPU true
             (setNMPCPU {| numThreads := 0; threadContexts := [] |}
                (mkCXLMemory (edgeEnv 1000 0) (sampleParams 1 2 true)))))) = 0.
Proof.
  destruct (bypass_not_started (edgeEnv 1000 2000)
              {| numThreads := 0; threadContexts := [] |} true 4096 8192
              (mkCXLMemory (edgeEnv 1000 0) (sampleParams 1 2 true)))
    as (_ & _ & H & _).
  - reflexivity.
  - right. right. vm_compute. discriminate.
  - rewrite H. reflexivity.
Defined.

(** ** The atomic path *)

(** X22: the two atomic entry points charge the same latency, twice the
    protocol latency in clock periods plus the backend's delay, and make the
    same checks on the command, a read for [M2SReq] and a write for [M2SRwD];
    they differ in one respect only: [recvAtomic] panics on a packet a cache
    is answering, [recvAtomicBackdoor] answers it. *)
Theorem atomic_paths_agree (clockPeriod : Tick) (cxl_cmd : MemCmd) (p : Packet)
    (access_delay : Tick) (s : CXLMemory) :
  recvAtomic clockPeriod cxl_cmd p access_delay s =
    (if cacheResponding p then inl AtomicCacheResponding
     else recvAtomicBackdoor clockPeriod cxl_cmd p access_delay s) /\
  recvAtomicBackdoor clockPeriod cxl_cmd p access_delay s =
    match cxl_cmd, isRead p, isWrite p with
    | M2SReq, false, _ => inl AssertM2SReqIsRead
    | M2SRwD, _, false => inl AssertM2SRwDIsWrite
    | _, _, _ =>
        inr (tick_add
               (wrap64 (wrap64 (rsp_protoProcLat (cxlRspPort s)
                                + rsp_protoProcLat (cxlRspPort s)) * clockPeriod))
               access_delay)
    end /\
  recvAtomicBackdoor clockPeriod cxl_cmd p access_delay s <> inl AtomicCacheResponding.
Proof.
  unfold recvAtomic, recvAtomicBackdoor, processCXLMem.
  destruct (cacheResponding p), cxl_cmd, (isRead p), (isWrite p); cbn;
    repeat split; discriminate.
Qed.
